(** * check-es-logs-count: a shallow embedding of the probe and its properties

    The probe renders a query template, posts it to the log index, decodes
    the hit count of the answer and compares it with a threshold, all raced
    against a timeout.  This file embeds [check-es-logs-count.go] function by
    function and proves the properties of its specification.

    Go strings are byte strings: they are modelled by [string], whose
    characters are the 256 values of [ascii].  Go's [int64] and [int] (64
    bits wide, as on the 64-bit platforms) are modelled by [Z], with the
    two's complement wrap-around written out where the program computes. *)

From Stdlib Require Import ZArith List String Ascii Bool Lia.
From Stdlib Require Import DecimalString.
From Stdlib Require DecimalFacts DecimalPos.
Import ListNotations.

Local Open Scope string_scope.
Local Open Scope Z_scope.

(** ** Machine integers *)

Module Int64.

Definition min_int : Z := - 2 ^ 63.
Definition max_int : Z := 2 ^ 63 - 1.

Definition in_range (z : Z) : Prop := min_int <= z <= max_int.

Definition in_rangeb (z : Z) : bool := (min_int <=? z) && (z <=? max_int).

(** The value a 64-bit signed register holds after computing [z]. *)
Definition wrap (z : Z) : Z := (z + 2 ^ 63) mod 2 ^ 64 - 2 ^ 63.

Definition mul (a b : Z) : Z := wrap (a * b).
Definition sub (a b : Z) : Z := wrap (a - b).

End Int64.

(** ** Characters and byte strings *)

Definition dquote : ascii := "034"%char.
Definition backslash : ascii := "092"%char.
Definition dq : string := String dquote EmptyString.
Definition nl : string := String "010"%char EmptyString.
Definition tab : string := String "009"%char EmptyString.

Fixpoint bytes (s : string) : list ascii :=
  match s with
  | EmptyString => []
  | String c r => c :: bytes r
  end.

Fixpoint of_bytes (l : list ascii) : string :=
  match l with
  | [] => EmptyString
  | c :: r => String c (of_bytes r)
  end.

(** Decimal rendering of an integer, as [%d] and [fmt.Fprint] print it. *)
Definition decimal (z : Z) : string := NilZero.string_of_int (Z.to_int z).

(** ** The [strings] package *)

Module strings.

(** [has_prefix p s]: [p] is a prefix of [s]. *)
Fixpoint has_prefix (p s : string) : bool :=
  match p, s with
  | EmptyString, _ => true
  | String a p', String b s' => Ascii.eqb a b && has_prefix p' s'
  | String _ _, EmptyString => false
  end.

Definition spend (budget : option nat) : option nat :=
  match budget with
  | Some (S k) => Some k
  | other => other
  end.

Definition exhausted (budget : option nat) : bool :=
  match budget with
  | Some O => true
  | _ => false
  end.

(** The replacement loop of [strings.Replace] for the non-empty pattern
    [String o old'].  Occurrences are found from left to right and do not
    overlap: once one is replaced, the [skip] bytes that remain of it are
    dropped.  [budget] is the number of replacements still allowed, [None]
    when there is no limit. *)
Fixpoint replace_loop (o : ascii) (old' new : string) (budget : option nat)
    (skip : nat) (s : string) : string :=
  match s with
  | EmptyString => EmptyString
  | String c r =>
      match skip with
      | S k => replace_loop o old' new budget k r
      | O =>
          if negb (exhausted budget) && (Ascii.eqb c o && has_prefix old' r)
          then new ++ replace_loop o old' new (spend budget) (String.length old') r
          else String c (replace_loop o old' new budget O r)
      end
  end.

(** [strings.Replace(s, old, new, n)] where [old] is [String o old']; a
    negative [n] means no limit on the number of replacements. *)
Definition Replace (s : string) (o : ascii) (old' : string) (new : string)
    (n : Z) : string :=
  replace_loop o old' new (if n <? 0 then None else Some (Z.to_nat n)) O s.

(** [strings.Join(elems, sep)]. *)
Fixpoint Join (elems : list string) (sep : string) : string :=
  match elems with
  | [] => EmptyString
  | [e] => e
  | e :: rest => e ++ sep ++ Join rest sep
  end.

End strings.

(** ** Query escaping *)

(** [normalizeEsQuery]: every occurrence of the one-byte pattern [dquote] is
    replaced by [backslash] followed by [dquote], without limit ([n = -1]). *)
Definition normalizeEsQuery (str : string) : string :=
  strings.Replace str dquote EmptyString (String backslash dq) (-1).

(** The escaping as the specification words it: every double quote becomes a
    backslash followed by a double quote, any other byte stays. *)
Definition escape_byte (c : ascii) : string :=
  if Ascii.eqb c dquote then String backslash (String dquote EmptyString)
  else String c EmptyString.

Fixpoint escape_quotes (s : string) : string :=
  match s with
  | EmptyString => EmptyString
  | String c r => escape_byte c ++ escape_quotes r
  end.

(** ** Errors *)

(** A Go [error] value.  [Errorf msg] is what [fmt.Errorf] builds, its text
    is [msg].  [TemplateFailure] stands for an error returned by the
    [text/template] package, whose wording belongs to that package. *)
Inductive template_failure : Type :=
| MalformedAction
| NoSuchField (name : string).

Inductive error : Type :=
| TemplateFailure (why : template_failure)
| Errorf (msg : string).

(** ** The [text/template] fragment used by the probe

    The package is modelled for templates made of literal text and of actions
    that print one field of the data: the left delimiter, blanks, a dot
    followed by a field name, blanks, the right delimiter.  Any other
    construct of the template language makes [Parse] answer [Unsupported]:
    the model says nothing about such a template. *)

Module template.

Inductive node : Type :=
| Text (s : string)
| Field (name : string).

Inductive mode : Type :=
| InText (pending_brace : bool)   (* literal text; the last byte was an opening brace *)
| ActionStart                     (* after the left delimiter *)
| FieldStart                      (* after the dot *)
| InField (name_rev : list ascii)
| AfterField (name : string)
| Closing (name : string).        (* the first closing brace was read *)

Record lexer : Type := mkLexer {
  nodes_rev : list node;
  text_rev : list ascii;
  current : mode
}.

Definition lbrace : ascii := "{"%char.
Definition rbrace : ascii := "}"%char.

Definition is_blank (c : ascii) : bool :=
  Ascii.eqb c " "%char || Ascii.eqb c "009"%char.

Definition is_letter (c : ascii) : bool :=
  let n := nat_of_ascii c in
  ((65 <=? n) && (n <=? 90) || (97 <=? n) && (n <=? 122) || (n =? 95))%nat.

Definition is_digit (c : ascii) : bool :=
  let n := nat_of_ascii c in ((48 <=? n) && (n <=? 57))%nat.

(** The literal text read so far becomes a text node, unless it is empty. *)
Definition flush (ns : list node) (t : list ascii) : list node :=
  match t with
  | [] => ns
  | _ => Text (of_bytes (rev t)) :: ns
  end.

(** One byte of the template source. [None]: outside the fragment. *)
Definition step (l : lexer) (c : ascii) : option lexer :=
  let ns := nodes_rev l in
  let t := text_rev l in
  match current l with
  | InText false =>
      if Ascii.eqb c lbrace then Some (mkLexer ns t (InText true))
      else Some (mkLexer ns (c :: t) (InText false))
  | InText true =>
      if Ascii.eqb c lbrace then Some (mkLexer (flush ns t) [] ActionStart)
      else Some (mkLexer ns (c :: lbrace :: t) (InText false))
  | ActionStart =>
      if is_blank c then Some l
      else if Ascii.eqb c "."%char then Some (mkLexer ns t FieldStart)
      else None
  | FieldStart =>
      if is_letter c then Some (mkLexer ns t (InField [c])) else None
  | InField n =>
      if is_letter c || is_digit c then Some (mkLexer ns t (InField (c :: n)))
      else if is_blank c then Some (mkLexer ns t (AfterField (of_bytes (rev n))))
      else if Ascii.eqb c rbrace then Some (mkLexer ns t (Closing (of_bytes (rev n))))
      else None
  | AfterField name =>
      if is_blank c then Some l
      else if Ascii.eqb c rbrace then Some (mkLexer ns t (Closing name))
      else None
  | Closing name =>
      if Ascii.eqb c rbrace then Some (mkLexer (Field name :: ns) [] (InText false))
      else None
  end.

Fixpoint run (l : lexer) (src : string) : option lexer :=
  match src with
  | EmptyString => Some l
  | String c r =>
      match step l c with
      | Some l' => run l' r
      | None => None
      end
  end.

Inductive parsed : Type :=
| Tree (nodes : list node)
| ParseError (e : error)
| Unsupported.

(** [template.New(name).Parse(src)].  When the source ends inside an action
    the package reports an error. *)
Definition Parse (src : string) : parsed :=
  match run (mkLexer [] [] (InText false)) src with
  | None => Unsupported
  | Some l =>
      match current l with
      | InText false => Tree (rev (flush (nodes_rev l) (text_rev l)))
      | InText true => Tree (rev (flush (nodes_rev l) (lbrace :: text_rev l)))
      | _ => ParseError (TemplateFailure MalformedAction)
      end
  end.

End template.

(** [TemplateESQuery]: the data handed to the template. *)
Record TemplateESQuery : Type := mkTemplateESQuery {
  TimeFrom : Z;
  Query : string
}.

Module execute.

(** What printing the field [name] of a [TemplateESQuery] writes; there is
    no other field. *)
Definition eval_field (data : TemplateESQuery) (name : string) : option string :=
  if String.eqb name "TimeFrom" then Some (decimal (TimeFrom data))
  else if String.eqb name "Query" then Some (Query data)
  else None.

(** [tmpl.Execute(&buf, data)]: the nodes are written to the buffer in
    order; a field the data does not have stops the execution. *)
Fixpoint Execute (nodes : list template.node) (data : TemplateESQuery)
    (buf : string) : string + error :=
  match nodes with
  | [] => inl buf
  | template.Text s :: rest => Execute rest data (buf ++ s)
  | template.Field name :: rest =>
      match eval_field data name with
      | Some v => Execute rest data (buf ++ v)
      | None => inr (TemplateFailure (NoSuchField name))
      end
  end.

End execute.

(** [getRenderedTemplate]. [None]: the template is outside the modelled
    fragment of [text/template]. *)
Definition getRenderedTemplate (templateSource query : string) (timeFrom : Z)
  : option (string * option error) :=
  let t := mkTemplateESQuery (Int64.mul timeFrom 1000) query in
  match template.Parse templateSource with
  | template.Unsupported => None
  | template.ParseError err => Some (EmptyString, Some err)
  | template.Tree tmpl =>
      match execute.Execute tmpl t EmptyString with
      | inr err => Some (EmptyString, Some err)
      | inl tpl => Some (tpl, None)
      end
  end.

(** [templateSource]: the query skeleton of the probe, byte for byte. *)
Definition templateSource : string :=
  nl
  ++ tab ++ "{" ++ nl
  ++ tab ++ tab ++ dq ++ "size" ++ dq ++ ": 0," ++ nl
  ++ tab ++ tab ++ dq ++ "query" ++ dq ++ ": {" ++ nl
  ++ tab ++ tab ++ tab ++ dq ++ "bool" ++ dq ++ ": {" ++ nl
  ++ tab ++ tab ++ tab ++ tab ++ dq ++ "must" ++ dq ++ ": [" ++ nl
  ++ tab ++ tab ++ tab ++ tab ++ tab ++ "{" ++ nl
  ++ tab ++ tab ++ tab ++ tab ++ tab ++ tab ++ dq ++ "query_string" ++ dq ++ ": {" ++ nl
  ++ tab ++ tab ++ tab ++ tab ++ tab ++ tab ++ tab ++ dq ++ "analyze_wildcard" ++ dq ++ ": true," ++ nl
  ++ tab ++ tab ++ tab ++ tab ++ tab ++ tab ++ tab ++ dq ++ "query" ++ dq ++ ": " ++ dq ++ "{{ .Query }}" ++ dq ++ nl
  ++ tab ++ tab ++ tab ++ tab ++ tab ++ tab ++ "}" ++ nl
  ++ tab ++ tab ++ tab ++ tab ++ tab ++ "}," ++ nl
  ++ tab ++ tab ++ tab ++ tab ++ tab ++ "{" ++ nl
  ++ tab ++ tab ++ tab ++ tab ++ tab ++ tab ++ dq ++ "range" ++ dq ++ ": {" ++ nl
  ++ tab ++ tab ++ tab ++ tab ++ tab ++ tab ++ tab ++ dq ++ "@timestamp" ++ dq ++ ": {" ++ nl
  ++ tab ++ tab ++ tab ++ tab ++ tab ++ tab ++ tab ++ tab ++ dq ++ "lte" ++ dq ++ ": " ++ dq ++ "now" ++ dq ++ "," ++ nl
  ++ tab ++ tab ++ tab ++ tab ++ tab ++ tab ++ tab ++ tab ++ dq ++ "gte" ++ dq ++ ": {{ .TimeFrom }}," ++ nl
  ++ tab ++ tab ++ tab ++ tab ++ tab ++ tab ++ tab ++ tab ++ dq ++ "format" ++ dq ++ ": " ++ dq ++ "epoch_millis" ++ dq ++ nl
  ++ tab ++ tab ++ tab ++ tab ++ tab ++ tab ++ tab ++ "}" ++ nl
  ++ tab ++ tab ++ tab ++ tab ++ tab ++ tab ++ "}" ++ nl
  ++ tab ++ tab ++ tab ++ tab ++ tab ++ "}" ++ nl
  ++ tab ++ tab ++ tab ++ tab ++ "]," ++ nl
  ++ tab ++ tab ++ tab ++ tab ++ dq ++ "must_not" ++ dq ++ ": []" ++ nl
  ++ tab ++ tab ++ tab ++ "}" ++ nl
  ++ tab ++ tab ++ "}," ++ nl
  ++ tab ++ tab ++ dq ++ "_source" ++ dq ++ ": {" ++ nl
  ++ tab ++ tab ++ tab ++ dq ++ "excludes" ++ dq ++ ": []" ++ nl
  ++ tab ++ tab ++ "}," ++ nl
  ++ tab ++ tab ++ dq ++ "aggs" ++ dq ++ ": {" ++ nl
  ++ tab ++ tab ++ tab ++ dq ++ "3" ++ dq ++ ": {" ++ nl
  ++ tab ++ tab ++ tab ++ tab ++ dq ++ "date_histogram" ++ dq ++ ": {" ++ nl
  ++ tab ++ tab ++ tab ++ tab ++ tab ++ dq ++ "field" ++ dq ++ ": " ++ dq ++ "@timestamp" ++ dq ++ "," ++ nl
  ++ tab ++ tab ++ tab ++ tab ++ tab ++ dq ++ "interval" ++ dq ++ ": " ++ dq ++ "1h" ++ dq ++ "," ++ nl
  ++ tab ++ tab ++ tab ++ tab ++ tab ++ dq ++ "time_zone" ++ dq ++ ": " ++ dq ++ "UTC" ++ dq ++ "," ++ nl
  ++ tab ++ tab ++ tab ++ tab ++ tab ++ dq ++ "min_doc_count" ++ dq ++ ": 1" ++ nl
  ++ tab ++ tab ++ tab ++ tab ++ "}" ++ nl
  ++ tab ++ tab ++ tab ++ "}" ++ nl
  ++ tab ++ tab ++ "}" ++ nl
  ++ tab ++ "}" ++ nl
  ++ tab.

(** *** Templates made of literal text and the two placeholders *)

Inductive piece : Type :=
| Lit (s : string)
| QueryPlaceholder (before after : nat)
| TimePlaceholder (before after : nat).

Fixpoint spaces (n : nat) : string :=
  match n with
  | O => EmptyString
  | S k => String " " (spaces k)
  end.

(** The template source of a piece.  A placeholder is an action that prints
    the field, with any number of spaces around the field; [templateSource]
    writes one space on each side. *)
Definition piece_source (p : piece) : string :=
  match p with
  | Lit s => s
  | QueryPlaceholder b a => "{{" ++ spaces b ++ ".Query" ++ spaces a ++ "}}"
  | TimePlaceholder b a => "{{" ++ spaces b ++ ".TimeFrom" ++ spaces a ++ "}}"
  end.

Fixpoint skeleton (ps : list piece) : string :=
  match ps with
  | [] => EmptyString
  | p :: rest => piece_source p ++ skeleton rest
  end.

(** The rendered text of a piece once the time placeholder holds [millis]
    and the query placeholder holds [query]. *)
Definition piece_value (millis : Z) (query : string) (p : piece) : string :=
  match p with
  | Lit s => s
  | QueryPlaceholder _ _ => query
  | TimePlaceholder _ _ => decimal millis
  end.

Fixpoint filled (ps : list piece) (millis : Z) (query : string) : string :=
  match ps with
  | [] => EmptyString
  | p :: rest => piece_value millis query p ++ filled rest millis query
  end.

(** A literal holds no left delimiter and does not end with an opening
    brace (which would join the delimiter that follows it). [pending] tells
    that the byte before the literal was an opening brace. *)
Fixpoint lit_ok (pending : bool) (s : string) : bool :=
  match s with
  | EmptyString => negb pending
  | String c r =>
      if Ascii.eqb c template.lbrace then negb pending && lit_ok true r
      else lit_ok false r
  end.

Definition piece_ok (p : piece) : bool :=
  match p with
  | Lit s => lit_ok false s
  | _ => true
  end.

Definition well_formed (ps : list piece) : bool := forallb piece_ok ps.

(** [templateSource] cut at its two placeholders. *)
Definition templateSource_pieces : list piece :=
  [ Lit (substring 0 138 templateSource); QueryPlaceholder 1 1;
    Lit (substring 150 102 templateSource); TimePlaceholder 1 1;
    Lit (substring 267 298 templateSource) ].

(** What the nodes and the pending text of a lexer print. *)
Definition printed (d : TemplateESQuery) (ns : list template.node)
    (t : list ascii) : string + error :=
  match execute.Execute (rev ns) d EmptyString with
  | inl o => inl (o ++ of_bytes (rev t))
  | inr e => inr e
  end.

(** ** The [encoding/json] package, as far as [parseResult] uses it

    [json.Unmarshal] first checks the whole input with its scanner, a state
    machine fed one byte at a time, and then decodes the value into the
    destination.  The machine below follows the states of that scanner and
    also builds the value it reads, so that the decoder can work on a tree. *)

Module json.

#[warnings="-register-all"] Inductive value : Type :=
| Null
| Bool (b : bool)
| Number (literal : string)
| Str (s : string)
| Array (items : list value)
| Object (members : list (string * value)).

(** *** String literals *)

Definition hex_digit (c : ascii) : option Z :=
  let n := Z.of_nat (nat_of_ascii c) in
  if (48 <=? n) && (n <=? 57) then Some (n - 48)
  else if (97 <=? n) && (n <=? 102) then Some (n - 87)
  else if (65 <=? n) && (n <=? 70) then Some (n - 55)
  else None.

(** [getu4] on the four digits that follow a backslash and the letter u;
    -1 when one of them is not a hexadecimal digit. *)
Definition hex4 (a b c d : ascii) : Z :=
  match hex_digit a, hex_digit b, hex_digit c, hex_digit d with
  | Some x, Some y, Some z, Some w => ((x * 16 + y) * 16 + z) * 16 + w
  | _, _, _, _ => -1
  end.

Definition byte_of (z : Z) : ascii := ascii_of_nat (Z.to_nat z).

(** UTF-8 encoding of a code point. *)
Definition utf8 (r : Z) : string :=
  if r <? 128 then String (byte_of r) EmptyString
  else if r <? 2048 then
    String (byte_of (192 + r / 64)) (String (byte_of (128 + r mod 64)) EmptyString)
  else if r <? 65536 then
    String (byte_of (224 + r / 4096))
      (String (byte_of (128 + (r / 64) mod 64))
         (String (byte_of (128 + r mod 64)) EmptyString))
  else
    String (byte_of (240 + r / 262144))
      (String (byte_of (128 + (r / 4096) mod 64))
         (String (byte_of (128 + (r / 64) mod 64))
            (String (byte_of (128 + r mod 64)) EmptyString))).

Definition replacement_char : Z := 65533.

Definition is_surrogate (r : Z) : bool := (55296 <=? r) && (r <? 57344).

(** [utf16.DecodeRune]. *)
Definition decode_surrogates (r1 r2 : Z) : Z :=
  if (55296 <=? r1) && (r1 <? 56320) && (56320 <=? r2) && (r2 <? 57344)
  then (r1 - 55296) * 1024 + (r2 - 56320) + 65536
  else replacement_char.

Definition escaped (c : ascii) : ascii :=
  if Ascii.eqb c "b" then "008"
  else if Ascii.eqb c "f" then "012"
  else if Ascii.eqb c "n" then "010"
  else if Ascii.eqb c "r" then "013"
  else if Ascii.eqb c "t" then "009"
  else c.

(** [unquote] on the bytes between the quotes of a literal the scanner
    accepted.  Bytes above 127 are kept as they are (the package replaces
    ill-formed UTF-8 by U+FFFD; no ASCII byte is produced or lost either
    way). *)
Fixpoint unquote (s : string) : string :=
  match s with
  | EmptyString => EmptyString
  | String c r =>
      if Ascii.eqb c backslash then
        match r with
        | EmptyString => EmptyString
        | String e r1 =>
            if Ascii.eqb e "u" then
              match r1 with
              | String h1 (String h2 (String h3 (String h4 r2))) =>
                  let rr := hex4 h1 h2 h3 h4 in
                  if is_surrogate rr then
                    match r2 with
                    | String b (String u (String l1 (String l2 (String l3 (String l4 r3))))) =>
                        let rr1 :=
                          if Ascii.eqb b backslash && Ascii.eqb u "u"
                          then hex4 l1 l2 l3 l4 else -1 in
                        let dec := decode_surrogates rr rr1 in
                        if dec =? replacement_char
                        then utf8 replacement_char ++ unquote r2
                        else utf8 dec ++ unquote r3
                    | _ => utf8 replacement_char ++ unquote r2
                    end
                  else utf8 rr ++ unquote r2
              | _ => EmptyString
              end
            else String (escaped e) (unquote r1)
        end
      else String c (unquote r)
  end.

(** *** The scanner *)

Inductive number_state : Type :=
| Neg | Zero | Digits | Dot | Dot0 | Exp | ExpSign | Exp0.

Inductive lex : Type :=
| BeginValue
| BeginValueOrEmpty
| BeginStringOrEmpty
| BeginString
| InString (raw_rev : list ascii)
| InStringEsc (raw_rev : list ascii)
| InStringEscU (missing : nat) (raw_rev : list ascii)
| InNumber (st : number_state) (lit_rev : list ascii)
| InKeyword (rest : string) (v : value)
| EndValue
| EndTop.

(** The container being read, with what was read of it. *)
Inductive frame : Type :=
| InArray (items_rev : list value)
| ObjectKey (members_rev : list (string * value))
| ObjectColon (members_rev : list (string * value)) (key : string)
| ObjectValue (members_rev : list (string * value)) (key : string)
| ObjectNext (members_rev : list (string * value)).

Record scanner : Type := mkScanner {
  state : lex;
  parseState : list frame;
  top : option value
}.

Definition maxNestingDepth : Z := 10000.

Definition isSpace (c : ascii) : bool :=
  Ascii.eqb c " " || Ascii.eqb c "009" || Ascii.eqb c "013" || Ascii.eqb c "010".

Definition isDigit (c : ascii) : bool :=
  let n := nat_of_ascii c in ((48 <=? n) && (n <=? 57))%nat.

Definition isDigit19 (c : ascii) : bool :=
  let n := nat_of_ascii c in ((49 <=? n) && (n <=? 57))%nat.

(** A value is complete: it goes to the container being read, or is the
    top-level value. *)
Definition finish (v : value) (stack : list frame) : option scanner :=
  match stack with
  | [] => Some (mkScanner EndTop [] (Some v))
  | InArray items :: rest => Some (mkScanner EndValue (InArray (v :: items) :: rest) None)
  | ObjectKey ms :: rest =>
      match v with
      | Str k => Some (mkScanner EndValue (ObjectColon ms k :: rest) None)
      | _ => None
      end
  | ObjectValue ms k :: rest =>
      Some (mkScanner EndValue (ObjectNext ((k, v) :: ms) :: rest) None)
  | _ => None
  end.

Definition push (f : frame) (next : lex) (stack : list frame) : option scanner :=
  if Z.of_nat (List.length stack) <? maxNestingDepth
  then Some (mkScanner next (f :: stack) None)
  else None.

Definition stateEndValue (stack : list frame) (c : ascii) : option scanner :=
  match stack with
  | [] => None
  | f :: rest =>
      if isSpace c then Some (mkScanner EndValue stack None)
      else
        match f with
        | ObjectColon ms k =>
            if Ascii.eqb c ":" then Some (mkScanner BeginValue (ObjectValue ms k :: rest) None)
            else None
        | ObjectNext ms =>
            if Ascii.eqb c "," then Some (mkScanner BeginString (ObjectKey ms :: rest) None)
            else if Ascii.eqb c "}" then finish (Object (rev ms)) rest
            else None
        | InArray items =>
            if Ascii.eqb c "," then Some (mkScanner BeginValue stack None)
            else if Ascii.eqb c "]" then finish (Array (rev items)) rest
            else None
        | _ => None
        end
  end.

Definition stateBeginString (stack : list frame) (c : ascii) : option scanner :=
  if isSpace c then Some (mkScanner BeginString stack None)
  else if Ascii.eqb c dquote then Some (mkScanner (InString []) stack None)
  else None.

Definition stateBeginValue (stack : list frame) (c : ascii) : option scanner :=
  if isSpace c then Some (mkScanner BeginValue stack None)
  else if Ascii.eqb c "{" then push (ObjectKey []) BeginStringOrEmpty stack
  else if Ascii.eqb c "[" then push (InArray []) BeginValueOrEmpty stack
  else if Ascii.eqb c dquote then Some (mkScanner (InString []) stack None)
  else if Ascii.eqb c "-" then Some (mkScanner (InNumber Neg [c]) stack None)
  else if Ascii.eqb c "0" then Some (mkScanner (InNumber Zero [c]) stack None)
  else if Ascii.eqb c "t" then Some (mkScanner (InKeyword "rue" (Bool true)) stack None)
  else if Ascii.eqb c "f" then Some (mkScanner (InKeyword "alse" (Bool false)) stack None)
  else if Ascii.eqb c "n" then Some (mkScanner (InKeyword "ull" Null) stack None)
  else if isDigit19 c then Some (mkScanner (InNumber Digits [c]) stack None)
  else None.

(** The literal read so far is a complete number and [c] follows it. *)
Definition end_number (lit_rev : list ascii) (stack : list frame) (c : ascii)
  : option scanner :=
  match finish (Number (of_bytes (rev lit_rev))) stack with
  | Some s =>
      match state s with
      | EndTop => if isSpace c then Some s else None
      | _ => stateEndValue (parseState s) c
      end
  | None => None
  end.

Definition stateNumber (st : number_state) (lit_rev : list ascii)
    (stack : list frame) (c : ascii) : option scanner :=
  let continue st' := Some (mkScanner (InNumber st' (c :: lit_rev)) stack None) in
  let is_e := Ascii.eqb c "e" || Ascii.eqb c "E" in
  match st with
  | Neg =>
      if Ascii.eqb c "0" then continue Zero
      else if isDigit19 c then continue Digits
      else None
  | Digits =>
      if isDigit c then continue Digits
      else if Ascii.eqb c "." then continue Dot
      else if is_e then continue Exp
      else end_number lit_rev stack c
  | Zero =>
      if Ascii.eqb c "." then continue Dot
      else if is_e then continue Exp
      else end_number lit_rev stack c
  | Dot => if isDigit c then continue Dot0 else None
  | Dot0 =>
      if isDigit c then continue Dot0
      else if is_e then continue Exp
      else end_number lit_rev stack c
  | Exp =>
      if Ascii.eqb c "+" || Ascii.eqb c "-" then continue ExpSign
      else if isDigit c then continue Exp0
      else None
  | ExpSign => if isDigit c then continue Exp0 else None
  | Exp0 =>
      if isDigit c then continue Exp0
      else end_number lit_rev stack c
  end.

(** One byte through the scanner; [None] is a syntax error. *)
Definition step (s : scanner) (c : ascii) : option scanner :=
  let stack := parseState s in
  match state s with
  | BeginValue => stateBeginValue stack c
  | BeginValueOrEmpty =>
      if isSpace c then Some s
      else if Ascii.eqb c "]" then
        match stack with
        | InArray items :: rest => finish (Array (rev items)) rest
        | _ => None
        end
      else stateBeginValue stack c
  | BeginStringOrEmpty =>
      if isSpace c then Some s
      else if Ascii.eqb c "}" then
        match stack with
        | ObjectKey ms :: rest => finish (Object (rev ms)) rest
        | _ => None
        end
      else stateBeginString stack c
  | BeginString => stateBeginString stack c
  | InString raw =>
      if Ascii.eqb c dquote then finish (Str (unquote (of_bytes (rev raw)))) stack
      else if Ascii.eqb c backslash then Some (mkScanner (InStringEsc (c :: raw)) stack None)
      else if (nat_of_ascii c <? 32)%nat then None
      else Some (mkScanner (InString (c :: raw)) stack None)
  | InStringEsc raw =>
      if Ascii.eqb c "b" || Ascii.eqb c "f" || Ascii.eqb c "n" || Ascii.eqb c "r"
         || Ascii.eqb c "t" || Ascii.eqb c backslash || Ascii.eqb c "/"
         || Ascii.eqb c dquote
      then Some (mkScanner (InString (c :: raw)) stack None)
      else if Ascii.eqb c "u" then Some (mkScanner (InStringEscU 4 (c :: raw)) stack None)
      else None
  | InStringEscU missing raw =>
      match hex_digit c, missing with
      | Some _, S O => Some (mkScanner (InString (c :: raw)) stack None)
      | Some _, S k => Some (mkScanner (InStringEscU k (c :: raw)) stack None)
      | _, _ => None
      end
  | InNumber st lit => stateNumber st lit stack c
  | InKeyword rest v =>
      match rest with
      | String e EmptyString => if Ascii.eqb c e then finish v stack else None
      | String e rest' =>
          if Ascii.eqb c e then Some (mkScanner (InKeyword rest' v) stack None) else None
      | EmptyString => None
      end
  | EndValue => stateEndValue stack c
  | EndTop => if isSpace c then Some s else None
  end.

Fixpoint scan (s : scanner) (data : string) : option scanner :=
  match data with
  | EmptyString => Some s
  | String c r =>
      match step s c with
      | Some s' => scan s' r
      | None => None
      end
  end.

(** At the end of the input the scanner is fed one space, which ends a
    number; the input is valid when the top-level value is then complete. *)
Definition eof (s : scanner) : option value :=
  match state s with
  | EndTop => top s
  | _ =>
      match step s " " with
      | Some s' => match state s' with EndTop => top s' | _ => None end
      | None => None
      end
  end.

(** The value of a JSON text; [None] when [checkValid] reports a syntax
    error. *)
Definition parse (data : string) : option value :=
  match scan (mkScanner BeginValue [] None) data with
  | Some s => eof s
  | None => None
  end.

End json.

(** *** Decoding into [QueryResult] *)

(** [QueryResult]: the nested field [Hits.Total], an [int]. *)
Record QueryResult : Type := mkQueryResult {
  Hits_Total : Z
}.

Module decode.

Definition is_lower (c : ascii) : bool :=
  let n := nat_of_ascii c in ((97 <=? n) && (n <=? 122))%nat.

Definition upper (c : ascii) : ascii := ascii_of_nat (nat_of_ascii c - 32).

(** [foldName]: ASCII letters go to upper case; the two letters outside
    ASCII whose case folding is an ASCII letter, U+017F (long s, bytes
    197 191) and U+212A (Kelvin sign, bytes 226 132 170), go to S and K.
    Any other byte above 127 stays, so that the key equals no field name. *)
Fixpoint foldName (s : string) : string :=
  match s with
  | EmptyString => EmptyString
  | String c r =>
      if is_lower c then String (upper c) (foldName r)
      else
        match r with
        | String c1 r1 =>
            if Ascii.eqb c "197" && Ascii.eqb c1 "191" then String "S" (foldName r1)
            else
              match r1 with
              | String c2 r2 =>
                  if Ascii.eqb c "226" && Ascii.eqb c1 "132" && Ascii.eqb c2 "170"
                  then String "K" (foldName r2)
                  else String c (foldName r)
              | EmptyString => String c (foldName r)
              end
        | EmptyString => String c EmptyString
        end
  end.

(** The key of a member selects the field tagged [name]: an exact match,
    or else a match up to case folding. *)
Definition selects (name key : string) : bool :=
  String.eqb key name || String.eqb (foldName key) (foldName name).

Fixpoint digits_value (acc : Z) (s : string) : option Z :=
  match s with
  | EmptyString => Some acc
  | String c r =>
      if json.isDigit c
      then digits_value (acc * 10 + (Z.of_nat (nat_of_ascii c) - 48)) r
      else None
  end.

(** [strconv.ParseInt(s, 10, 64)]: an optional sign, then decimal digits
    only, and a value that fits 64 bits. *)
Definition ParseInt (s : string) : option Z :=
  let signed (neg : bool) (ds : string) :=
    match ds with
    | EmptyString => None
    | _ =>
        match digits_value 0 ds with
        | Some n =>
            let v := if neg then - n else n in
            if Int64.in_rangeb v then Some v else None
        | None => None
        end
    end in
  match s with
  | String c r =>
      if Ascii.eqb c "-" then signed true r
      else if Ascii.eqb c "+" then signed false r
      else signed false s
  | EmptyString => None
  end.

(** The state of a decoding: the destination and whether a type error was
    saved.  Decoding goes on after a type error. *)
Record decodeState : Type := mkDecodeState {
  result : QueryResult;
  savedError : bool
}.

Definition saveError (d : decodeState) : decodeState :=
  mkDecodeState (result d) true.

(** A value for the [int] field [Total]. *)
Definition store_total (v : json.value) (d : decodeState) : decodeState :=
  match v with
  | json.Null => d
  | json.Number lit =>
      match ParseInt lit with
      | Some n => mkDecodeState (mkQueryResult n) (savedError d)
      | None => saveError d
      end
  | _ => saveError d
  end.

Definition hits_member (d : decodeState) (m : string * json.value) : decodeState :=
  if selects "total" (fst m) then store_total (snd m) d else d.

(** A value for the struct field [Hits]. *)
Definition store_hits (v : json.value) (d : decodeState) : decodeState :=
  match v with
  | json.Null => d
  | json.Object members => fold_left hits_member members d
  | _ => saveError d
  end.

Definition top_member (d : decodeState) (m : string * json.value) : decodeState :=
  if selects "hits" (fst m) then store_hits (snd m) d else d.

(** A value for the struct [QueryResult]. *)
Definition store_result (v : json.value) (d : decodeState) : decodeState :=
  match v with
  | json.Null => d
  | json.Object members => fold_left top_member members d
  | _ => saveError d
  end.

End decode.

Inductive unmarshal_error : Type :=
| SyntaxError
| UnmarshalTypeError.

(** [json.Unmarshal(data, &result)] for a [QueryResult]. *)
Definition Unmarshal (data : string) (result : QueryResult)
  : QueryResult * option unmarshal_error :=
  match json.parse data with
  | None => (result, Some SyntaxError)
  | Some v =>
      let d := decode.store_result v (decode.mkDecodeState result false) in
      (decode.result d, if decode.savedError d then Some UnmarshalTypeError else None)
  end.

(** [parseResult]. *)
Definition parseResult (data : string) : QueryResult * option error :=
  let result := mkQueryResult 0 in
  match Unmarshal data result with
  | (result, Some _) => (result, Some (Errorf "JSON parse failed"))
  | (result, None) => (result, None)
  end.

(** *** What a JSON value holds for [QueryResult] *)

Module shape.

Definition members (v : json.value) : list (string * json.value) :=
  match v with
  | json.Object ms => ms
  | _ => []
  end.

(** The values of the members of [v] that select the field [name], in the
    order of the document. *)
Definition fields (name : string) (v : json.value) : list json.value :=
  map snd (filter (fun m => decode.selects name (fst m)) (members v)).

Definition hits_fields (v : json.value) : list json.value := fields "hits" v.

(** Every [hits.total] field of the document. *)
Definition total_fields (v : json.value) : list json.value :=
  flat_map (fields "total") (hits_fields v).

Definition is_number (v : json.value) : bool :=
  match v with
  | json.Number _ => true
  | _ => false
  end.

Definition object_or_null (v : json.value) : bool :=
  match v with
  | json.Null | json.Object _ => true
  | _ => false
  end.

(** [null], or a number literal that [ParseInt] reads as a 64-bit integer. *)
Definition int_or_null (v : json.value) : bool :=
  match v with
  | json.Null => true
  | json.Number lit =>
      match decode.ParseInt lit with Some _ => true | None => false end
  | _ => false
  end.

(** The document has the shape of a [QueryResult]. *)
Definition fits (v : json.value) : bool :=
  object_or_null v
  && forallb object_or_null (hits_fields v)
  && forallb int_or_null (total_fields v).

Definition ints (vs : list json.value) : list Z :=
  flat_map (fun v =>
              match v with
              | json.Number lit =>
                  match decode.ParseInt lit with Some n => [n] | None => [] end
              | _ => []
              end) vs.

(** The integer of the last [hits.total] field that holds one; 0 when
    there is none. *)
Definition total (v : json.value) : Z := last (ints (total_fields v)) 0.

(** The input is a JSON text of the shape of a [QueryResult]. *)
Definition decodable (data : string) : bool :=
  match json.parse data with
  | Some v => fits v
  | None => false
  end.

(** The failure condition as the specification words it: the text is not
    valid JSON, or the [hits.total] field is absent or not a number. *)
Definition absent_or_non_numeric (v : json.value) : bool :=
  match total_fields v with
  | [] => true
  | vs => negb (forallb is_number vs)
  end.

Definition stated_failure (data : string) : bool :=
  match json.parse data with
  | Some v => absent_or_non_numeric v
  | None => true
  end.

End shape.

(** ** The world around the probe *)

(** The answer of [gorequest] to a request: the [*http.Response] fields the
    probe reads. *)
Record Response : Type := mkResponse {
  StatusCode : Z;
  Status : string
}.

(** What [request.Post(url).Send(content).End()] returns: a non-nil list of
    errors (given by their descriptions), or a response and its body. *)
Inductive EndResult : Type :=
| Errors (errs : list string)
| Answer (resp : Response) (body : string).

(** A calendar date of [time.Time]. *)
Record Date : Type := mkDate {
  year : Z;
  month : Z;
  day : Z
}.

(** What the probe observes of its environment.
    - [service url content]: the outcome of posting [content] to [url];
    - [start_time]: [time.Now().Unix()] when the entry point computes the
      lower time bound;
    - [request_date]: the date of [time.Now().Local()] when the pipeline
      builds the request URL;
    - [send_ready]: the time, in nanoseconds after the entry point starts to
      wait, at which the send of the pipeline is ready; [None] if it never is;
    - [coin]: the choice [select] makes when both of its cases are ready. *)
Record World : Type := mkWorld {
  service : string -> string -> EndResult;
  start_time : Z;
  request_date : Date;
  send_ready : option N;
  coin : bool
}.

(** ** Effects of the pipeline *)

(** [Msg]: the channel message. *)
Record Msg : Type := mkMsg {
  Count : Z;
  Err : option error
}.

Inductive event : Type :=
| HttpPost (url content : string)   (* a POST request is issued *)
| Send (m : Msg).                   (* [c <- m] *)

(** A computation that performs events and returns a value. *)
Definition Task (A : Type) : Type := (list event * A)%type.

Definition ret {A : Type} (a : A) : Task A := ([], a).

Definition bind {A B : Type} (m : Task A) (k : A -> Task B) : Task B :=
  let (es, a) := m in
  let (es', b) := k a in
  ((es ++ es')%list, b).

Declare Scope task_scope.
Delimit Scope task_scope with task.
Notation "x <- m ;; k" := (bind m (fun x => k))
  (at level 61, m at next level, right associativity) : task_scope.

Definition events {A : Type} (t : Task A) : list event := fst t.

Definition send (m : Msg) : Task unit := ([Send m], tt).

Definition request_End (w : World) (url content : string) : Task EndResult :=
  ([HttpPost url content], service w url content).

Definition sent (es : list event) : list Msg :=
  flat_map (fun e => match e with Send m => [m] | _ => [] end) es.

Definition posts (es : list event) : list (string * string) :=
  flat_map (fun e => match e with HttpPost u c => [(u, c)] | _ => [] end) es.

(** ** The HTTP query client *)

(** [esQueryPost]. *)
Definition esQueryPost (w : World) (url content : string)
  : Task (string * option error) :=
  (r <- request_End w url content ;;
   match r with
   | Errors errs =>
       (* each error is printed with %s: its description *)
       let errsStr := errs in
       ret (EmptyString, Some (Errorf (strings.Join errsStr ", ")))
   | Answer resp body =>
       if negb (StatusCode resp =? 200)
       then ret (EmptyString, Some (Errorf ("HTTP response code: " ++ Status resp)))
       else ret (body, None)
   end)%task.

(** [s] occurs in [t]. *)
Definition occurs_in (s t : string) : Prop :=
  exists before after : string, t = before ++ s ++ after.

(** ** Dates *)

Module time.

Fixpoint zeros (n : nat) : string :=
  match n with
  | O => EmptyString
  | S k => String "0" (zeros k)
  end.

(** [appendInt]: the decimal digits of [x], padded with zeros to [width],
    after a minus sign when [x] is negative. *)
Definition appendInt (x : Z) (width : nat) : string :=
  let digits := decimal (Z.abs x) in
  (if x <? 0 then "-" else EmptyString)
  ++ zeros (width - String.length digits) ++ digits.

(** [t.Format("2006.01.02")]. *)
Definition Format_2006_01_02 (d : Date) : string :=
  appendInt (year d) 4 ++ "." ++ appendInt (month d) 2 ++ "." ++ appendInt (day d) 2.

End time.

(** The date written YYYY.MM.DD, digit by digit. *)
Definition digit (n : Z) : ascii := ascii_of_nat (Z.to_nat (48 + n mod 10)).

Definition four_digits (y : Z) : string :=
  String (digit (y / 1000)) (String (digit (y / 100))
    (String (digit (y / 10)) (String (digit y) EmptyString))).

Definition two_digits (m : Z) : string :=
  String (digit (m / 10)) (String (digit m) EmptyString).

Definition YYYY_MM_DD (d : Date) : string :=
  four_digits (year d) ++ "." ++ two_digits (month d) ++ "." ++ two_digits (day d).

Definition calendar_date (d : Date) : Prop :=
  0 <= year d <= 9999 /\ 1 <= month d <= 12 /\ 1 <= day d <= 31.

(** ** The query pipeline *)

(** [getQueryResultCount]; the channel [c] receives the [Send] events.
    [None]: the template is outside the modelled fragment. *)
Definition getQueryResultCount (w : World)
    (url indexPattern templateSource query : string) (timeFrom : Z)
  : option (Task unit) :=
  let msg := mkMsg 0 None in
  match getRenderedTemplate templateSource query timeFrom with
  | None => None
  | Some (tmpl, Some err) => Some (send (mkMsg (Count msg) (Some err)))
  | Some (tmpl, None) =>
      let currentTime := request_date w in
      let url := url ++ "/" ++ indexPattern ++ "-"
                 ++ time.Format_2006_01_02 currentTime ++ "/_search" in
      Some (r <- esQueryPost w url tmpl ;;
            match r with
            | (data, Some err) => send (mkMsg (Count msg) (Some err))
            | (data, None) =>
                match parseResult data with
                | (result, Some err) => send (mkMsg (Count msg) (Some err))
                | (result, None) => send (mkMsg (Hits_Total result) None)
                end
            end)%task
  end.

(** ** The entry point *)

(** The flags of the command line. *)
Record Config : Type := mkConfig {
  esURL : string;
  timeout : Z;
  timePeriod : Z;
  indexPattern : string;
  esQuery : string;
  countThreshold : Z;
  compareOperator : string
}.

(** The severities of [nagiosplugin]. *)
Module nagiosplugin.
Inductive Status : Type := OK | WARNING | CRITICAL | UNKNOWN.
End nagiosplugin.

(** The text of a check result.  [Entries] is the message
    [<count> entries of '<query>' (<count/threshold*100>%) found in the past
    <timePeriod> minutes]; the percentage is computed in floating point and
    is kept symbolic here.  [TemplateText] is the text of an error of
    [text/template]. *)
Inductive text : Type :=
| Plain (s : string)
| Entries (count : Z) (query : string) (threshold : Z) (timePeriod : Z)
| TemplateText (why : template_failure).

(** [fmt.Sprintf("%v", err)]. *)
Definition error_text (e : error) : text :=
  match e with
  | Errorf msg => Plain msg
  | TemplateFailure why => TemplateText why
  end.

(** The case [select] ran. *)
Inductive selected : Type :=
| Received (m : Msg)
| TimedOut.

(** [select] over the channel [c] and the channel of [time.After(d)], in
    logical time.  The timer is ready [d] nanoseconds after the wait starts,
    at once when [d] is not positive.  The receive is ready when the send of
    the pipeline is.  The case that is ready first runs; [coin] chooses when
    both are ready at the same instant. *)
Definition select (c : list Msg) (ready : option N) (d : Z) (coin : bool)
  : selected :=
  match c, ready with
  | m :: _, Some a =>
      let timer := Z.max 0 d in
      if Z.of_N a <? timer then Received m
      else if timer <? Z.of_N a then TimedOut
      else if coin then Received m else TimedOut
  | _, _ => TimedOut
  end.

(** [time.Second], in nanoseconds. *)
Definition Second : Z := 1000000000.

(** What a run of the entry point did.
    - [results]: the calls of [check.AddResult], in order;
    - [spawned]: [None] when the pipeline was not started, else the events of
      the pipeline when it runs up to its send (the process may exit before);
    - [consumed]: the cases of [select] that ran. *)
Record Run : Type := mkRun {
  results : list (nagiosplugin.Status * text);
  spawned : option (list event);
  consumed : list selected
}.

Definition requests (r : Run) : list (string * string) :=
  match spawned r with
  | Some es => posts es
  | None => []
  end.

(** The body of the receive case of [select] in [main]. *)
Definition on_message (cfg : Config) (msg : Msg) : list (nagiosplugin.Status * text) :=
  match Err msg with
  | None =>
      let line := Entries (Count msg) (esQuery cfg) (countThreshold cfg) (timePeriod cfg) in
      if (String.eqb (compareOperator cfg) "gt" && (countThreshold cfg <=? Count msg))
         || (String.eqb (compareOperator cfg) "lt" && (Count msg <=? countThreshold cfg))
      then [(nagiosplugin.OK, line)]
      else if (String.eqb (compareOperator cfg) "gt" && (Count msg <? countThreshold cfg))
              || (String.eqb (compareOperator cfg) "lt" && (countThreshold cfg <? Count msg))
      then [(nagiosplugin.CRITICAL, line)]
      else []
  | Some err => [(nagiosplugin.UNKNOWN, error_text err)]
  end.

(** [main], after the flags are parsed.  [None]: [templateSource] is outside
    the modelled template fragment (it is not, see [main_runs]). *)
Definition main (cfg : Config) (w : World) : option Run :=
  if negb (String.eqb (compareOperator cfg) "lt")
     && negb (String.eqb (compareOperator cfg) "gt")
  then Some (mkRun [(nagiosplugin.UNKNOWN, Plain "compare-operator parameter should be 'lt' or 'gt'")]
               None [])
  else if countThreshold cfg =? 0
  then Some (mkRun [(nagiosplugin.UNKNOWN, Plain "threshold cannot be equal to 0")] None [])
  else
    match getQueryResultCount w (esURL cfg) (indexPattern cfg) templateSource
            (normalizeEsQuery (esQuery cfg))
            (Int64.sub (start_time w) (Int64.mul 60 (timePeriod cfg))) with
    | None => None
    | Some pipeline =>
        let c := sent (events pipeline) in
        let choice := select c (send_ready w) (Int64.mul Second (timeout cfg)) (coin w) in
        Some (mkRun
                match choice with
                | Received msg => on_message cfg msg
                | TimedOut => [(nagiosplugin.UNKNOWN, Plain "connection timeout")]
                end
                (Some (events pipeline)) [choice])
    end.

(** *** Notions of the specification *)

(** A validated configuration. *)
Definition validated (cfg : Config) : Prop :=
  (compareOperator cfg = "gt" \/ compareOperator cfg = "lt")
  /\ countThreshold cfg <> 0.

(** The Outcome Message is not available within [T] seconds of waiting. *)
Definition not_within (ready : option N) (T : Z) : Prop :=
  match ready with
  | None => True
  | Some a => Z.max 0 (T * 1000000000) < Z.of_N a
  end.

(** *** A sample world *)

Definition sample_body (total : string) : string :=
  "{" ++ dq ++ "took" ++ dq ++ ":3," ++ dq ++ "hits" ++ dq ++ ":{"
  ++ dq ++ "total" ++ dq ++ ":" ++ total ++ "," ++ dq ++ "hits" ++ dq ++ ":[]}}".

Definition sample_world (answer : EndResult) (ready : option N) : World :=
  mkWorld (fun _ _ => answer) 1700000000 (mkDate 2023 11 14) ready true.

Definition sample_config (threshold : Z) (operator : string) (seconds : Z) : Config :=
  mkConfig "http://localhost:9200" seconds 5 "logstash-*" "*" threshold operator.

(** The integers from 0 to [n - 1]. *)
Definition upto (n : nat) : list Z := map Z.of_nat (seq 0 n).

(** ** Further notions used by the properties *)

(** Every double quote of [s] comes right after a backslash;
    [after_backslash] tells that the byte before [s] is a backslash. *)
Fixpoint quotes_guarded (after_backslash : bool) (s : string) : bool :=
  match s with
  | EmptyString => true
  | String c r =>
      if Ascii.eqb c dquote then after_backslash && quotes_guarded false r
      else quotes_guarded (Ascii.eqb c backslash) r
  end.

(** The number of occurrences of the byte [c] in [s]. *)
Fixpoint count_byte (c : ascii) (s : string) : nat :=
  match s with
  | EmptyString => O
  | String a r => ((if Ascii.eqb a c then 1 else 0) + count_byte c r)%nat
  end.

(** The count a decodable body holds. *)
Definition decoded_count (body : string) : Z :=
  match json.parse body with
  | Some v => shape.total v
  | None => 0
  end.

(** The message the pipeline sends for an outcome of the request. *)
Definition reply (r : EndResult) : Msg :=
  match r with
  | Errors errs => mkMsg 0 (Some (Errorf (strings.Join errs ", ")))
  | Answer resp body =>
      if StatusCode resp =? 200 then
        if shape.decodable body then mkMsg (decoded_count body) None
        else mkMsg 0 (Some (Errorf "JSON parse failed"))
      else mkMsg 0 (Some (Errorf ("HTTP response code: " ++ Status resp)))
  end.

(** The URL the pipeline posts to. *)
Definition search_url (w : World) (url indexPattern : string) : string :=
  url ++ "/" ++ indexPattern ++ "-" ++ time.Format_2006_01_02 (request_date w)
  ++ "/_search".

(** The names of the fields of [TemplateESQuery]. *)
Definition known_field (name : string) : bool :=
  String.eqb name "TimeFrom" || String.eqb name "Query".

(** The names of the fields the template prints. *)
Definition printed_fields (nodes : list template.node) : list string :=
  flat_map (fun n => match n with template.Field name => [name] | _ => [] end) nodes.

(** A query of printable ASCII bytes (codes 32 to 127) without a backslash. *)
Definition plain_byte (c : ascii) : bool :=
  let n := nat_of_ascii c in
  ((32 <=? n) && (n <? 128))%nat && negb (Ascii.eqb c backslash).

Fixpoint plain_query (s : string) : bool :=
  match s with
  | EmptyString => true
  | String c r => plain_byte c && plain_query r
  end.

(** Reading a JSON document: the first member of an object with a key, the
    item of an array at an index, and a path of members from a value. *)
Fixpoint assoc (key : string) (ms : list (string * json.value)) : option json.value :=
  match ms with
  | [] => None
  | (k, v) :: rest => if String.eqb k key then Some v else assoc key rest
  end.

Definition member (key : string) (v : json.value) : option json.value :=
  match v with
  | json.Object ms => assoc key ms
  | _ => None
  end.

Definition item (n : nat) (v : json.value) : option json.value :=
  match v with
  | json.Array items => nth_error items n
  | _ => None
  end.

Definition and_then {A B : Type} (o : option A) (f : A -> option B) : option B :=
  match o with
  | Some a => f a
  | None => None
  end.

(** The condition [n] of the [must] clause of the query document. *)
Definition must_clause (n : nat) (v : json.value) : option json.value :=
  and_then (and_then (and_then (member "query" v) (member "bool")) (member "must"))
    (item n).

(** The text searched for: [query.bool.must[0].query_string.query]. *)
Definition query_string_of (v : json.value) : option json.value :=
  and_then (and_then (must_clause 0 v) (member "query_string")) (member "query").

(** The lower bound of the time range:
    [query.bool.must[1].range.@timestamp.gte]. *)
Definition lower_bound_of (v : json.value) : option json.value :=
  and_then (and_then (and_then (must_clause 1 v) (member "range"))
              (member "@timestamp")) (member "gte").

(** * Properties *)

Example normalizeEsQuery_sample :
  normalizeEsQuery ("level:" ++ dq ++ "error" ++ dq)
  = "level:" ++ String backslash dq ++ "error" ++ String backslash dq.
Proof. reflexivity. Qed.

(** C6. For every query string, [normalizeEsQuery] replaces each double-quote
    byte by a backslash followed by a double quote and leaves every other
    byte unchanged. *)
Theorem normalizeEsQuery_escapes_quotes :
  forall str : string, normalizeEsQuery str = escape_quotes str.
Proof.
  intro str. unfold normalizeEsQuery, strings.Replace. simpl.
  induction str as [| c r IH]; simpl.
  - reflexivity.
  - unfold escape_byte. destruct (Ascii.eqb c dquote); simpl.
    + now rewrite IH.
    + now rewrite IH.
Qed.

(** ** Rendering the template *)

Lemma string_app_nil_r (s : string) : s ++ EmptyString = s.
Proof. induction s; simpl; congruence. Qed.

Lemma string_app_assoc (a b c : string) : (a ++ b) ++ c = a ++ b ++ c.
Proof. induction a; simpl; congruence. Qed.

Lemma of_bytes_app (a b : list ascii) :
  of_bytes (a ++ b)%list = of_bytes a ++ of_bytes b.
Proof. induction a; simpl; congruence. Qed.

Lemma of_bytes_bytes (s : string) : of_bytes (bytes s) = s.
Proof. induction s; simpl; congruence. Qed.

Example templateSource_skeleton :
  skeleton templateSource_pieces = templateSource
  /\ well_formed templateSource_pieces = true.
Proof. split; vm_compute; reflexivity. Qed.

Lemma run_app (a b : string) :
  forall l, template.run l (a ++ b) =
            match template.run l a with
            | Some l' => template.run l' b
            | None => None
            end.
Proof.
  induction a as [| c a IH]; intro l; simpl.
  - reflexivity.
  - destruct (template.step l c); [apply IH | reflexivity].
Qed.

(** Literal text is accumulated byte by byte and opens no action. *)
Lemma run_literal (s : string) :
  forall pending ns t,
    lit_ok pending s = true ->
    template.run (template.mkLexer ns t (template.InText pending)) s
    = Some (template.mkLexer ns
              (rev (bytes s) ++ (if pending then template.lbrace :: t else t))%list
              (template.InText false)).
Proof.
  induction s as [| c r IH]; intros pending ns t Hok; simpl in Hok.
  - destruct pending; [discriminate | reflexivity].
  - simpl. unfold template.step; simpl.
    destruct (Ascii.eqb c template.lbrace) eqn:Hc.
    + apply Ascii.eqb_eq in Hc. subst c.
      destruct pending; simpl in Hok; [discriminate |].
      rewrite (IH true ns t Hok). now rewrite <- app_assoc.
    + destruct pending; rewrite (IH false _ _ Hok); now rewrite <- app_assoc.
Qed.

Lemma Execute_app (a b : list template.node) (d : TemplateESQuery) :
  forall buf, execute.Execute (a ++ b) d buf =
              match execute.Execute a d buf with
              | inl buf' => execute.Execute b d buf'
              | inr e => inr e
              end.
Proof.
  induction a as [| n a IH]; intro buf; simpl.
  - reflexivity.
  - destruct n as [s | name]; [apply IH |].
    destruct (execute.eval_field d name); [apply IH | reflexivity].
Qed.

Lemma Execute_flush (d : TemplateESQuery) (ns : list template.node) (t : list ascii) :
  execute.Execute (rev (template.flush ns t)) d EmptyString = printed d ns t.
Proof.
  unfold printed, template.flush. destruct t as [| c t].
  - simpl. destruct (execute.Execute (rev ns) d EmptyString); [| reflexivity].
    now rewrite string_app_nil_r.
  - cbn [rev]. rewrite Execute_app.
    destruct (execute.Execute (rev ns) d EmptyString); reflexivity.
Qed.

Lemma run_spaces_before (n : nat) (ns : list template.node) (t : list ascii)
    (s : string) :
  template.run (template.mkLexer ns t template.ActionStart) (spaces n ++ s)
  = template.run (template.mkLexer ns t template.ActionStart) s.
Proof. induction n as [| n IH]; [reflexivity | exact IH]. Qed.

Lemma run_spaces_after (n : nat) (name : string) (ns : list template.node)
    (t : list ascii) (s : string) :
  template.run (template.mkLexer ns t (template.AfterField name)) (spaces n ++ s)
  = template.run (template.mkLexer ns t (template.AfterField name)) s.
Proof. induction n as [| n IH]; [reflexivity | exact IH]. Qed.

(** An action that prints a field adds a field node after the pending text. *)
Lemma run_query_action (b a : nat) (ns : list template.node) (t : list ascii) :
  template.run (template.mkLexer ns t (template.InText false))
    (piece_source (QueryPlaceholder b a))
  = Some (template.mkLexer (template.Field "Query" :: template.flush ns t) []
            (template.InText false)).
Proof.
  simpl. rewrite run_spaces_before.
  destruct a as [| a]; [reflexivity |].
  cbn. apply run_spaces_after.
Qed.

Lemma run_time_action (b a : nat) (ns : list template.node) (t : list ascii) :
  template.run (template.mkLexer ns t (template.InText false))
    (piece_source (TimePlaceholder b a))
  = Some (template.mkLexer (template.Field "TimeFrom" :: template.flush ns t) []
            (template.InText false)).
Proof.
  simpl. rewrite run_spaces_before.
  destruct a as [| a]; [reflexivity |].
  cbn. apply run_spaces_after.
Qed.

Lemma run_piece (p : piece) (ns : list template.node) (t : list ascii) :
  piece_ok p = true ->
  exists ns' t',
    template.run (template.mkLexer ns t (template.InText false)) (piece_source p)
    = Some (template.mkLexer ns' t' (template.InText false))
    /\ forall d o, printed d ns t = inl o ->
                   printed d ns' t' = inl (o ++ piece_value (TimeFrom d) (Query d) p).
Proof.
  intro Hok. destruct p as [s | b a | b a]; simpl in Hok.
  - exists ns, (rev (bytes s) ++ t)%list. split.
    + apply (run_literal s false ns t Hok).
    + intros d o. unfold printed.
      destruct (execute.Execute (rev ns) d EmptyString) as [o0 |]; [| discriminate].
      intro H. injection H as <-. simpl.
      rewrite rev_app_distr, rev_involutive, of_bytes_app, of_bytes_bytes.
      now rewrite string_app_assoc.
  - exists (template.Field "Query" :: template.flush ns t), []. split.
    + apply run_query_action.
    + intros d o H. unfold printed. cbn [rev]. rewrite Execute_app, Execute_flush, H.
      simpl. now rewrite string_app_nil_r.
  - exists (template.Field "TimeFrom" :: template.flush ns t), []. split.
    + apply run_time_action.
    + intros d o H. unfold printed. cbn [rev]. rewrite Execute_app, Execute_flush, H.
      simpl. now rewrite string_app_nil_r.
Qed.

Lemma run_skeleton (ps : list piece) :
  forall ns t,
    well_formed ps = true ->
    exists ns' t',
      template.run (template.mkLexer ns t (template.InText false)) (skeleton ps)
      = Some (template.mkLexer ns' t' (template.InText false))
      /\ forall d o, printed d ns t = inl o ->
                     printed d ns' t' = inl (o ++ filled ps (TimeFrom d) (Query d)).
Proof.
  induction ps as [| p ps IH]; intros ns t Hwf; simpl in Hwf.
  - exists ns, t. split; [reflexivity |]. intros d o H. simpl.
    now rewrite string_app_nil_r.
  - apply andb_prop in Hwf. destruct Hwf as [Hp Hps].
    destruct (run_piece p ns t Hp) as (ns1 & t1 & Hrun1 & Hout1).
    destruct (IH ns1 t1 Hps) as (ns2 & t2 & Hrun2 & Hout2).
    exists ns2, t2. split.
    + simpl. rewrite run_app, Hrun1. exact Hrun2.
    + intros d o H. simpl. rewrite <- string_app_assoc.
      apply Hout2, Hout1, H.
Qed.

(** The renderer on a template of literal text and placeholders: the value
    written for the time placeholder is the 64-bit product of the bound and
    1000. *)
Lemma getRenderedTemplate_skeleton (ps : list piece) (query : string) (timeFrom : Z) :
  well_formed ps = true ->
  getRenderedTemplate (skeleton ps) query timeFrom
  = Some (filled ps (Int64.mul timeFrom 1000) query, None).
Proof.
  intro Hwf.
  destruct (run_skeleton ps [] [] Hwf) as (ns & t & Hrun & Hout).
  unfold getRenderedTemplate, template.Parse. rewrite Hrun. simpl.
  rewrite Execute_flush.
  rewrite (Hout (mkTemplateESQuery (Int64.mul timeFrom 1000) query) EmptyString
             eq_refl).
  reflexivity.
Qed.

Lemma wrap_in_range (z : Z) : Int64.in_range z -> Int64.wrap z = z.
Proof.
  unfold Int64.in_range, Int64.min_int, Int64.max_int, Int64.wrap. intro H.
  rewrite Z.mod_small; lia.
Qed.

(** C5 (as amended). For every template made of literal text and of the two
    placeholders (the actions that print the query and the time bound, with
    any spacing), every query string and every lower time bound [T] in
    seconds whose product with 1000 fits a signed 64-bit integer, the
    rendered output is the template with [T * 1000] written in decimal at
    the time placeholder and the query string at the query placeholder. *)
Theorem getRenderedTemplate_substitutes :
  forall (ps : list piece) (query : string) (T : Z),
    well_formed ps = true ->
    Int64.in_range (T * 1000) ->
    getRenderedTemplate (skeleton ps) query T
    = Some (filled ps (T * 1000) query, None).
Proof.
  intros ps query T Hwf Hrange.
  rewrite (getRenderedTemplate_skeleton ps query T Hwf).
  unfold Int64.mul. now rewrite (wrap_in_range _ Hrange).
Qed.

Lemma getRenderedTemplate_substitutes_witness :
  getRenderedTemplate templateSource "level:error" 1700000000
  = Some (filled templateSource_pieces 1700000000000 "level:error", None).
Proof.
  change templateSource with (skeleton templateSource_pieces).
  apply (getRenderedTemplate_substitutes templateSource_pieces "level:error" 1700000000).
  - vm_compute; reflexivity.
  - unfold Int64.in_range, Int64.min_int, Int64.max_int; lia.
Defined.

(** C5, as stated, fails when [T * 1000] leaves the 64-bit range: the
    product wraps around and the wrapped value is rendered. *)
Lemma getRenderedTemplate_substitutes_counterexample :
  Int64.in_range 9223372036854776
  /\ getRenderedTemplate (skeleton [TimePlaceholder 0 3]) EmptyString 9223372036854776
     <> Some (filled [TimePlaceholder 0 3] (9223372036854776 * 1000) EmptyString, None).
Proof.
  split.
  - unfold Int64.in_range, Int64.min_int, Int64.max_int; lia.
  - vm_compute. discriminate.
Qed.

(** ** Decoding the response *)

Example parse_samples :
  json.parse "{}" = Some (json.Object [])
  /\ json.parse "[1, [true, null], -0.5e+10]"
     = Some (json.Array [json.Number "1"; json.Array [json.Bool true; json.Null];
                         json.Number "-0.5e+10"])
  /\ json.parse "[1,]" = None
  /\ json.parse "01" = None
  /\ json.parse EmptyString = None.
Proof. repeat split; reflexivity. Qed.

Example parseResult_sample :
  parseResult ("{" ++ dq ++ "took" ++ dq ++ ":3," ++ dq ++ "hits" ++ dq ++ ":{"
               ++ dq ++ "total" ++ dq ++ ":150," ++ dq ++ "hits" ++ dq ++ ":[]}}")
  = (mkQueryResult 150, None).
Proof. reflexivity. Qed.

Lemma last_cons {A : Type} (l : list A) (x d : A) : last (x :: l) d = last l x.
Proof.
  revert x d. induction l as [| y l IH]; intros x d; [reflexivity |].
  change (last (x :: y :: l) d) with (last (y :: l) d).
  now rewrite !IH.
Qed.

Lemma last_app_default {A : Type} (a b : list A) (d : A) :
  last (a ++ b) d = last b (last a d).
Proof.
  revert d. induction a as [| x a IH]; intro d; [reflexivity |].
  rewrite <- app_comm_cons, !last_cons. apply IH.
Qed.

Lemma ints_app (a b : list json.value) :
  shape.ints (a ++ b) = (shape.ints a ++ shape.ints b)%list.
Proof. unfold shape.ints. now rewrite flat_map_app. Qed.

(** A loop over the members that acts on the selected ones is a loop over
    the selected fields. *)
Lemma fold_selected (name : string)
    (f : json.value -> decode.decodeState -> decode.decodeState)
    (ms : list (string * json.value)) :
  forall d,
    fold_left (fun d m => if decode.selects name (fst m) then f (snd m) d else d) ms d
    = fold_left (fun d x => f x d)
        (map snd (filter (fun m => decode.selects name (fst m)) ms)) d.
Proof.
  induction ms as [| m ms IH]; intro d; simpl; [reflexivity |].
  destruct (decode.selects name (fst m)); simpl; apply IH.
Qed.

Lemma store_total_spec (x : json.value) (d : decode.decodeState) :
  decode.savedError (decode.store_total x d)
  = decode.savedError d || negb (shape.int_or_null x)
  /\ Hits_Total (decode.result (decode.store_total x d))
     = last (shape.ints [x]) (Hits_Total (decode.result d)).
Proof.
  destruct d as [[n] e].
  destruct x as [| b | lit | s | items | ms]; simpl;
    try (split; [now rewrite ?orb_true_r, ?orb_false_r | reflexivity]).
  destruct (decode.ParseInt lit); simpl;
    split; now rewrite ?orb_true_r, ?orb_false_r.
Qed.

Lemma store_totals_spec (xs : list json.value) :
  forall d,
    let d' := fold_left (fun d x => decode.store_total x d) xs d in
    decode.savedError d' = decode.savedError d || negb (forallb shape.int_or_null xs)
    /\ Hits_Total (decode.result d')
       = last (shape.ints xs) (Hits_Total (decode.result d)).
Proof.
  induction xs as [| x xs IH]; intro d; cbn zeta.
  - simpl. now rewrite orb_false_r.
  - cbn [fold_left forallb].
    destruct (IH (decode.store_total x d)) as [He Hv].
    destruct (store_total_spec x d) as [He1 Hv1].
    cbn zeta in He, Hv. rewrite He, Hv, He1, Hv1. split.
    + rewrite negb_andb. now rewrite orb_assoc.
    + change (x :: xs) with ([x] ++ xs)%list.
      now rewrite ints_app, last_app_default.
Qed.

Lemma store_hits_spec (h : json.value) (d : decode.decodeState) :
  decode.savedError (decode.store_hits h d)
  = decode.savedError d || negb (shape.object_or_null h)
    || negb (forallb shape.int_or_null (shape.fields "total" h))
  /\ Hits_Total (decode.result (decode.store_hits h d))
     = last (shape.ints (shape.fields "total" h)) (Hits_Total (decode.result d)).
Proof.
  destruct h as [| b | lit | s | items | ms]; simpl;
    try (split; [now rewrite ?orb_true_r, ?orb_false_r | reflexivity]).
  unfold decode.hits_member, shape.fields. simpl.
  rewrite (fold_selected "total" decode.store_total ms d).
  rewrite orb_false_r. apply store_totals_spec.
Qed.

Lemma store_hits_list_spec (hs : list json.value) :
  forall d,
    let d' := fold_left (fun d h => decode.store_hits h d) hs d in
    decode.savedError d'
    = decode.savedError d || negb (forallb shape.object_or_null hs)
      || negb (forallb shape.int_or_null (flat_map (shape.fields "total") hs))
    /\ Hits_Total (decode.result d')
       = last (shape.ints (flat_map (shape.fields "total") hs))
           (Hits_Total (decode.result d)).
Proof.
  induction hs as [| h hs IH]; intro d; cbn zeta.
  - simpl. now rewrite !orb_false_r.
  - cbn [fold_left forallb flat_map].
    destruct (IH (decode.store_hits h d)) as [He Hv].
    destruct (store_hits_spec h d) as [He1 Hv1].
    cbn zeta in He, Hv. rewrite He, Hv, He1, Hv1. split.
    + rewrite forallb_app, !negb_andb.
      destruct (decode.savedError d), (shape.object_or_null h),
        (forallb shape.int_or_null (shape.fields "total" h)),
        (forallb shape.object_or_null hs); reflexivity.
    + now rewrite ints_app, last_app_default.
Qed.

(** The decoder saves an error exactly when the document does not fit, and
    leaves in [Total] the last integer it stored. *)
Lemma store_result_spec (v : json.value) :
  let d := decode.store_result v (decode.mkDecodeState (mkQueryResult 0) false) in
  decode.savedError d = negb (shape.fits v)
  /\ Hits_Total (decode.result d) = shape.total v.
Proof.
  cbn zeta. unfold shape.fits, shape.total, shape.total_fields, shape.hits_fields.
  destruct v as [| b | lit | s | items | ms]; simpl; try (split; reflexivity).
  unfold decode.top_member, shape.fields. simpl.
  rewrite (fold_selected "hits" decode.store_hits ms _).
  destruct (store_hits_list_spec
              (map snd (filter (fun m => decode.selects "hits" (fst m)) ms))
              (decode.mkDecodeState (mkQueryResult 0) false)) as [He Hv].
  cbn zeta in He, Hv. rewrite He, Hv. simpl. split; [| reflexivity].
  now rewrite negb_andb.
Qed.

Lemma parseResult_decodable (data : string) (v : json.value) :
  json.parse data = Some v ->
  parseResult data
  = (mkQueryResult (shape.total v),
     if shape.fits v then None else Some (Errorf "JSON parse failed")).
Proof.
  intro Hp. unfold parseResult, Unmarshal. rewrite Hp.
  destruct (store_result_spec v) as [He Hv]. cbn zeta in He, Hv.
  destruct (decode.store_result v _) as [[n] e]. simpl in He, Hv. subst n e.
  destruct (shape.fits v); reflexivity.
Qed.

(** C2 (as amended). For every input string, [parseResult] returns an error,
    with the fixed message, if and only if the string is not valid JSON or
    its value does not have the shape of a [QueryResult]: the top-level
    value is neither an object nor null, a hits member is neither an object
    nor null, or a hits.total member is neither null nor an integer literal
    in the 64-bit range.  Otherwise it returns the value of the last such
    hits.total integer, and 0 when the field is absent. *)
Theorem parseResult_error_iff :
  forall data : string,
    (snd (parseResult data) = Some (Errorf "JSON parse failed")
     <-> shape.decodable data = false)
    /\ (snd (parseResult data) = None
        <-> exists v, json.parse data = Some v /\ shape.fits v = true
                      /\ parseResult data = (mkQueryResult (shape.total v), None)).
Proof.
  intro data. unfold shape.decodable.
  destruct (json.parse data) as [v |] eqn:Hp.
  - rewrite (parseResult_decodable data v Hp).
    destruct (shape.fits v) eqn:Hfits; simpl.
    + split; split.
      * discriminate.
      * discriminate.
      * intros _. exists v. auto.
      * reflexivity.
    + split; split.
      * reflexivity.
      * reflexivity.
      * discriminate.
      * intros (v' & Hv' & Hfits' & _). congruence.
  - unfold parseResult, Unmarshal. rewrite Hp. simpl. split; split.
    + reflexivity.
    + reflexivity.
    + discriminate.
    + intros (v' & H & _). discriminate H.
Qed.

(** C2, as stated, fails on the empty object: the text is valid JSON and
    holds no hits.total field, yet [parseResult] returns no error. *)
Lemma parseResult_error_iff_counterexample :
  ~ (snd (parseResult "{}") = Some (Errorf "JSON parse failed")
     <-> shape.stated_failure "{}" = true).
Proof.
  intros [_ H]. specialize (H eq_refl). discriminate H.
Qed.

(** C10 (as amended). For every input string that is valid JSON, whose
    top-level value is an object (or null), whose hits members are objects
    (or null) and which holds no hits.total field, [parseResult] returns a
    hit count of 0 and no error. *)
Theorem parseResult_absent_total :
  forall (data : string) (v : json.value),
    json.parse data = Some v ->
    shape.object_or_null v = true ->
    forallb shape.object_or_null (shape.hits_fields v) = true ->
    shape.total_fields v = [] ->
    parseResult data = (mkQueryResult 0, None).
Proof.
  intros data v Hp Htop Hhits Habsent.
  rewrite (parseResult_decodable data v Hp).
  unfold shape.fits, shape.total. rewrite Htop, Hhits, Habsent. reflexivity.
Qed.

Lemma parseResult_absent_total_witness :
  parseResult "{}" = (mkQueryResult 0, None).
Proof.
  apply (parseResult_absent_total "{}" (json.Object [])); reflexivity.
Defined.

(** C10, as stated, fails on the empty array: the text is valid JSON and
    holds no hits.total field, yet [parseResult] returns an error. *)
Lemma parseResult_absent_total_counterexample :
  json.parse "[]" = Some (json.Array [])
  /\ shape.total_fields (json.Array []) = []
  /\ parseResult "[]" <> (mkQueryResult 0, None).
Proof.
  repeat split. vm_compute. discriminate.
Qed.

(** ** The HTTP query client *)

(** C7. For every POST of [esQueryPost]: exactly one request is issued; the
    call succeeds if and only if there is no transport error and the status
    code is 200, and then returns the response body; with another status
    code it returns an error whose message contains the status line; with
    transport errors it returns an error whose message is their descriptions
    joined by a comma and a space. *)
Theorem esQueryPost_outcome :
  forall (w : World) (url content : string),
    let call := esQueryPost w url content in
    events call = [HttpPost url content]
    /\ (snd (snd call) = None
        <-> exists resp body,
              service w url content = Answer resp body /\ StatusCode resp = 200)
    /\ (forall resp body,
          service w url content = Answer resp body ->
          (StatusCode resp = 200 -> snd call = (body, None))
          /\ (StatusCode resp <> 200 ->
              exists msg, snd call = (EmptyString, Some (Errorf msg))
                          /\ occurs_in (Status resp) msg))
    /\ (forall errs,
          service w url content = Errors errs ->
          snd call = (EmptyString, Some (Errorf (strings.Join errs ", ")))).
Proof.
  intros w url content. cbn zeta.
  unfold esQueryPost, request_End, bind, ret, events.
  destruct (service w url content) as [errs | resp body] eqn:Hs.
  - simpl. split; [reflexivity |]. split; [| split].
    + split; [discriminate |].
      intros (resp & body & H & _). discriminate H.
    + intros resp body H. discriminate H.
    + intros errs' H. injection H as <-. reflexivity.
  - destruct (StatusCode resp =? 200) eqn:Hc; simpl.
    + apply Z.eqb_eq in Hc. split; [reflexivity |]. split; [| split].
      * split; [| reflexivity]. intros _. exists resp, body. auto.
      * intros resp' body' H. injection H as <- <-. split.
        -- reflexivity.
        -- intro Hne. contradiction.
      * intros errs H. discriminate H.
    + apply Z.eqb_neq in Hc. split; [reflexivity |]. split; [| split].
      * split; [discriminate |].
        intros (resp' & body' & H & H200). injection H as <- <-. contradiction.
      * intros resp' body' H. injection H as <- <-. split.
        -- intro H200. contradiction.
        -- intros _. exists ("HTTP response code: " ++ Status resp). split.
           ++ reflexivity.
           ++ exists "HTTP response code: ", EmptyString.
              now rewrite string_app_nil_r.
      * intros errs H. discriminate H.
Qed.

Example esQueryPost_samples :
  snd (esQueryPost (sample_world (Answer (mkResponse 200 "200 OK") "{}") None) "u" "b")
  = ("{}", None)
  /\ snd (esQueryPost (sample_world (Answer (mkResponse 500 "500 Internal Server Error") "{}")
                         None) "u" "b")
     = (EmptyString, Some (Errorf "HTTP response code: 500 Internal Server Error"))
  /\ snd (esQueryPost (sample_world (Errors ["dial tcp: refused"; "EOF"]) None) "u" "b")
     = (EmptyString, Some (Errorf "dial tcp: refused, EOF")).
Proof. repeat split; reflexivity. Qed.

(** ** The query pipeline *)

(** The events of the pipeline, by the outcome of the rendering. *)
Lemma getQueryResultCount_events (w : World)
    (url indexPattern templateSource query : string) (timeFrom : Z) :
  match getRenderedTemplate templateSource query timeFrom with
  | None =>
      getQueryResultCount w url indexPattern templateSource query timeFrom = None
  | Some (_, Some err) =>
      getQueryResultCount w url indexPattern templateSource query timeFrom
      = Some ([Send (mkMsg 0 (Some err))], tt)
  | Some (tmpl, None) =>
      exists m,
        getQueryResultCount w url indexPattern templateSource query timeFrom
        = Some ([HttpPost (url ++ "/" ++ indexPattern ++ "-"
                           ++ time.Format_2006_01_02 (request_date w) ++ "/_search")
                   tmpl;
                 Send m], tt)
  end.
Proof.
  unfold getQueryResultCount.
  destruct (getRenderedTemplate templateSource query timeFrom) as [[tmpl [err |]] |];
    try reflexivity.
  unfold esQueryPost, request_End, bind, ret, send.
  destruct (service w _ tmpl) as [errs | resp body].
  - eexists. reflexivity.
  - destruct (negb (StatusCode resp =? 200)).
    + eexists. reflexivity.
    + destruct (parseResult body) as [result [err |]]; eexists; reflexivity.
Qed.

Lemma render_templateSource (query : string) (timeFrom : Z) :
  getRenderedTemplate templateSource query timeFrom
  = Some (filled templateSource_pieces (Int64.mul timeFrom 1000) query, None).
Proof.
  change templateSource with (skeleton templateSource_pieces).
  apply getRenderedTemplate_skeleton. vm_compute. reflexivity.
Qed.

(** The entry point is inside the model, whatever the flags and the world. *)
Lemma main_runs (cfg : Config) (w : World) : exists run, main cfg w = Some run.
Proof.
  unfold main.
  destruct (negb _ && negb _); [eexists; reflexivity |].
  destruct (countThreshold cfg =? 0); [eexists; reflexivity |].
  pose proof (getQueryResultCount_events w (esURL cfg) (indexPattern cfg)
                templateSource (normalizeEsQuery (esQuery cfg))
                (Int64.sub (start_time w) (Int64.mul 60 (timePeriod cfg)))) as H.
  rewrite render_templateSource in H. destruct H as [m ->].
  eexists. reflexivity.
Qed.

(** ** The request URL *)

Lemma in_upto (n : nat) (z : Z) : 0 <= z < Z.of_nat n -> In z (upto n).
Proof.
  intro H. unfold upto. apply in_map_iff. exists (Z.to_nat z). split.
  - lia.
  - apply in_seq. lia.
Qed.

Lemma appendInt_four_digits (y : Z) :
  0 <= y <= 9999 -> time.appendInt y 4 = four_digits y.
Proof.
  intro H.
  assert (Hall : forallb (fun y => String.eqb (time.appendInt y 4) (four_digits y))
                   (upto (Z.to_nat 10000)) = true) by (vm_compute; reflexivity).
  rewrite forallb_forall in Hall. apply String.eqb_eq, Hall, in_upto. lia.
Qed.

Lemma appendInt_two_digits (m : Z) :
  0 <= m <= 99 -> time.appendInt m 2 = two_digits m.
Proof.
  intro H.
  assert (Hall : forallb (fun m => String.eqb (time.appendInt m 2) (two_digits m))
                   (upto (Z.to_nat 100)) = true) by (vm_compute; reflexivity).
  rewrite forallb_forall in Hall. apply String.eqb_eq, Hall, in_upto. lia.
Qed.

(** The layout 2006.01.02 writes a calendar date as YYYY.MM.DD. *)
Lemma Format_calendar_date (d : Date) :
  calendar_date d -> time.Format_2006_01_02 d = YYYY_MM_DD d.
Proof.
  intros (Hy & Hm & Hd). unfold time.Format_2006_01_02, YYYY_MM_DD.
  rewrite (appendInt_four_digits (year d)) by lia.
  rewrite (appendInt_two_digits (month d)) by lia.
  rewrite (appendInt_two_digits (day d)) by lia.
  reflexivity.
Qed.

(** C8. For every base URL, index pattern and date read by the pipeline
    when it builds the request, the URL of the request is the base URL, a
    slash, the index pattern, a dash, the date in the layout 2006.01.02 and
    the suffix /_search; for a calendar date the layout writes YYYY.MM.DD. *)
Theorem request_url :
  forall (w : World) (url indexPattern templateSource query tmpl : string)
         (timeFrom : Z),
    getRenderedTemplate templateSource query timeFrom = Some (tmpl, None) ->
    exists task,
      getQueryResultCount w url indexPattern templateSource query timeFrom = Some task
      /\ posts (events task)
         = [(url ++ "/" ++ indexPattern ++ "-"
             ++ time.Format_2006_01_02 (request_date w) ++ "/_search", tmpl)]
      /\ (calendar_date (request_date w) ->
          time.Format_2006_01_02 (request_date w) = YYYY_MM_DD (request_date w)).
Proof.
  intros w url indexPattern templateSource query tmpl timeFrom Hr.
  pose proof (getQueryResultCount_events w url indexPattern templateSource query
                timeFrom) as H.
  rewrite Hr in H. destruct H as [m H].
  eexists. split; [exact H |]. split; [reflexivity |].
  apply Format_calendar_date.
Qed.

Lemma request_url_witness :
  exists task,
    getQueryResultCount (sample_world (Errors []) None) "http://localhost:9200"
      "logstash-mediawiki" templateSource "*" 1700000000 = Some task
    /\ map fst (posts (events task))
       = ["http://localhost:9200/logstash-mediawiki-2023.11.14/_search"].
Proof.
  destruct (request_url (sample_world (Errors []) None) "http://localhost:9200"
              "logstash-mediawiki" templateSource "*" _ 1700000000
              (render_templateSource "*" 1700000000))
    as (task & Htask & Hposts & Hdate).
  exists task. split; [exact Htask |].
  rewrite Hposts. cbn [map fst].
  rewrite Hdate by (unfold calendar_date; simpl; lia).
  reflexivity.
Defined.

(** C9. On every path of the pipeline exactly one message is sent on the
    channel and at most one request is issued; in every run of the entry
    point at most one request is issued and at most one case of [select]
    is consumed. *)
Theorem one_message_one_request :
  (forall (w : World) (url indexPattern templateSource query : string)
          (timeFrom : Z),
      template.Parse templateSource <> template.Unsupported ->
      exists task,
        getQueryResultCount w url indexPattern templateSource query timeFrom
        = Some task
        /\ List.length (sent (events task)) = 1%nat
        /\ (List.length (posts (events task)) <= 1)%nat)
  /\ (forall (cfg : Config) (w : World),
        exists run,
          main cfg w = Some run
          /\ (List.length (requests run) <= 1)%nat
          /\ (List.length (consumed run) <= 1)%nat).
Proof.
  split.
  - intros w url indexPattern templateSource query timeFrom Hsup.
    pose proof (getQueryResultCount_events w url indexPattern templateSource query
                  timeFrom) as H.
    destruct (getRenderedTemplate templateSource query timeFrom)
      as [[tmpl [err |]] |] eqn:Hr.
    + eexists. split; [exact H |]. simpl. auto.
    + destruct H as [m H]. eexists. split; [exact H |]. simpl. auto.
    + exfalso. apply Hsup. unfold getRenderedTemplate in Hr.
      destruct (template.Parse templateSource) as [nodes | e |];
        [| discriminate | reflexivity].
      destruct (execute.Execute nodes _ EmptyString); discriminate.
  - intros cfg w. unfold main.
    destruct (negb _ && negb _); [eexists; split; [reflexivity | simpl; auto] |].
    destruct (countThreshold cfg =? 0);
      [eexists; split; [reflexivity | simpl; auto] |].
    pose proof (getQueryResultCount_events w (esURL cfg) (indexPattern cfg)
                  templateSource (normalizeEsQuery (esQuery cfg))
                  (Int64.sub (start_time w) (Int64.mul 60 (timePeriod cfg)))) as H.
    rewrite render_templateSource in H. destruct H as [m ->].
    eexists. split; [reflexivity |]. simpl. auto.
Qed.

Lemma one_message_one_request_witness :
  exists task,
    getQueryResultCount (sample_world (Errors ["EOF"]) None) "u" "i"
      "{{ .NoSuchField }}" "*" 0 = Some task
    /\ List.length (sent (events task)) = 1%nat.
Proof.
  destruct (proj1 one_message_one_request (sample_world (Errors ["EOF"]) None)
              "u" "i" "{{ .NoSuchField }}" "*" 0)
    as (task & Htask & Hsent & _).
  - vm_compute. discriminate.
  - exists task. split; assumption.
Defined.

(** ** The entry point *)

(** With a validated configuration the pipeline is started and [select]
    decides the results. *)
Lemma main_validated (cfg : Config) (w : World) :
  validated cfg ->
  exists es,
    let choice := select (sent es) (send_ready w)
                    (Int64.mul Second (timeout cfg)) (coin w) in
    main cfg w
    = Some (mkRun
              match choice with
              | Received msg => on_message cfg msg
              | TimedOut => [(nagiosplugin.UNKNOWN, Plain "connection timeout")]
              end
              (Some es) [choice]).
Proof.
  intros [Hop Hthr]. unfold main.
  replace (negb (compareOperator cfg =? "lt")%string
           && negb (compareOperator cfg =? "gt")%string) with false
    by (destruct Hop as [-> | ->]; reflexivity).
  apply Z.eqb_neq in Hthr. rewrite Hthr.
  pose proof (getQueryResultCount_events w (esURL cfg) (indexPattern cfg)
                templateSource (normalizeEsQuery (esQuery cfg))
                (Int64.sub (start_time w) (Int64.mul 60 (timePeriod cfg)))) as H.
  rewrite render_templateSource in H. destruct H as [m ->].
  eexists. reflexivity.
Qed.

(** The verdict for a hit count, by the comparison the operator names. *)
Lemma on_message_verdict (cfg : Config) (count : Z) :
  validated cfg ->
  exists st,
    on_message cfg (mkMsg count None)
    = [(st, Entries count (esQuery cfg) (countThreshold cfg) (timePeriod cfg))]
    /\ (st = nagiosplugin.OK
        <-> (compareOperator cfg = "gt" /\ count >= countThreshold cfg)
            \/ (compareOperator cfg = "lt" /\ count <= countThreshold cfg))
    /\ (st = nagiosplugin.CRITICAL
        <-> (compareOperator cfg = "gt" /\ count < countThreshold cfg)
            \/ (compareOperator cfg = "lt" /\ count > countThreshold cfg)).
Proof.
  intros [Hop _]. unfold on_message. cbn [Err Count].
  destruct Hop as [Hop | Hop]; rewrite Hop; cbn [String.eqb Ascii.eqb Bool.eqb andb orb].
  - destruct (Z.leb_spec (countThreshold cfg) count) as [Hle | Hlt].
    + exists nagiosplugin.OK. split; [reflexivity |]. split; split.
      * intros _. left. split; [reflexivity | lia].
      * reflexivity.
      * discriminate.
      * intros [[_ H] | [H _]]; [lia | discriminate H].
    + destruct (Z.ltb_spec count (countThreshold cfg)) as [_ | Hge]; [| lia].
      exists nagiosplugin.CRITICAL. split; [reflexivity |]. split; split.
      * discriminate.
      * intros [[_ H] | [H _]]; [lia | discriminate H].
      * intros _. left. split; [reflexivity | lia].
      * reflexivity.
  - destruct (Z.leb_spec count (countThreshold cfg)) as [Hle | Hlt].
    + exists nagiosplugin.OK. split; [reflexivity |]. split; split.
      * intros _. right. split; [reflexivity | lia].
      * reflexivity.
      * discriminate.
      * intros [[H _] | [_ H]]; [discriminate H | lia].
    + destruct (Z.ltb_spec (countThreshold cfg) count) as [_ | Hge]; [| lia].
      exists nagiosplugin.CRITICAL. split; [reflexivity |]. split; split.
      * discriminate.
      * intros [[H _] | [_ H]]; [discriminate H | lia].
      * intros _. right. split; [reflexivity | lia].
      * reflexivity.
Qed.

(** C1. For every validated configuration and every hit count received
    from the pipeline without error, the entry point adds exactly one
    result; it is OK exactly when the operator is gt and the count is at
    least the threshold, or the operator is lt and the count is at most the
    threshold; it is CRITICAL exactly when the operator is gt and the count
    is below the threshold, or the operator is lt and the count is above
    it; a count equal to the threshold is OK under both operators. *)
Theorem verdict_matches_threshold :
  forall (cfg : Config) (w : World) (run : Run) (count : Z),
    validated cfg ->
    main cfg w = Some run ->
    consumed run = [Received (mkMsg count None)] ->
    exists st,
      results run
      = [(st, Entries count (esQuery cfg) (countThreshold cfg) (timePeriod cfg))]
      /\ (st = nagiosplugin.OK
          <-> (compareOperator cfg = "gt" /\ count >= countThreshold cfg)
              \/ (compareOperator cfg = "lt" /\ count <= countThreshold cfg))
      /\ (st = nagiosplugin.CRITICAL
          <-> (compareOperator cfg = "gt" /\ count < countThreshold cfg)
              \/ (compareOperator cfg = "lt" /\ count > countThreshold cfg))
      /\ (count = countThreshold cfg -> st = nagiosplugin.OK).
Proof.
  intros cfg w run count Hval Hmain Hcons.
  destruct (main_validated cfg w Hval) as [es Hrun]. cbn zeta in Hrun.
  rewrite Hrun in Hmain. injection Hmain as <-. cbn [consumed results] in *.
  injection Hcons as Hsel. rewrite Hsel.
  destruct (on_message_verdict cfg count Hval) as (st & Hres & Hok & Hcrit).
  exists st. split; [exact Hres |]. split; [exact Hok |]. split; [exact Hcrit |].
  intro Heq. apply Hok. destruct Hval as [[Hop | Hop] _].
  - left. split; [exact Hop | lia].
  - right. split; [exact Hop | lia].
Qed.

Lemma verdict_matches_threshold_witness :
  exists run st,
    main (sample_config 10 "lt" 20)
      (sample_world (Answer (mkResponse 200 "200 OK") (sample_body "10")) (Some 5%N))
    = Some run
    /\ results run = [(st, Entries 10 "*" 10 5)]
    /\ st = nagiosplugin.OK.
Proof.
  destruct (main_runs (sample_config 10 "lt" 20)
              (sample_world (Answer (mkResponse 200 "200 OK") (sample_body "10"))
                 (Some 5%N))) as [run Hrun].
  exists run.
  destruct (verdict_matches_threshold (sample_config 10 "lt" 20)
              (sample_world (Answer (mkResponse 200 "200 OK") (sample_body "10"))
                 (Some 5%N))
              run 10) as (st & Hres & _ & _ & Hboundary).
  - split; [right; reflexivity | discriminate].
  - exact Hrun.
  - revert Hrun. vm_compute. intro H. injection H as <-. reflexivity.
  - exists st. split; [exact Hrun |]. split; [exact Hres | apply Hboundary; reflexivity].
Defined.

(** C3. For every configuration whose operator is neither lt nor gt, or
    whose threshold is 0, the entry point adds one UNKNOWN result, does not
    start the pipeline and issues no request. *)
Theorem invalid_configuration_is_unknown :
  forall (cfg : Config) (w : World),
    (compareOperator cfg <> "lt" /\ compareOperator cfg <> "gt")
    \/ countThreshold cfg = 0 ->
    exists run msg,
      main cfg w = Some run
      /\ results run = [(nagiosplugin.UNKNOWN, msg)]
      /\ spawned run = None
      /\ requests run = []
      /\ consumed run = [].
Proof.
  intros cfg w Hbad. unfold main.
  destruct (negb (compareOperator cfg =? "lt")%string
            && negb (compareOperator cfg =? "gt")%string) eqn:Hop.
  - eexists. eexists. repeat split.
  - destruct Hbad as [[Hlt Hgt] | Hzero].
    + apply String.eqb_neq in Hlt, Hgt. rewrite Hlt, Hgt in Hop. discriminate Hop.
    + rewrite Hzero. simpl. eexists. eexists. repeat split.
Qed.

Lemma invalid_configuration_is_unknown_witness :
  exists run msg,
    main (sample_config 100 "xx" 20) (sample_world (Errors []) None) = Some run
    /\ results run = [(nagiosplugin.UNKNOWN, msg)]
    /\ spawned run = None
    /\ requests run = []
    /\ consumed run = [].
Proof.
  apply (invalid_configuration_is_unknown (sample_config 100 "xx" 20)
           (sample_world (Errors []) None)).
  left. split; discriminate.
Defined.

Lemma wrap_le_max (z : Z) : Int64.wrap z <= Int64.max_int.
Proof.
  unfold Int64.wrap, Int64.max_int.
  pose proof (Z.mod_pos_bound (z + 2 ^ 63) (2 ^ 64) ltac:(lia)). lia.
Qed.

(** The timer never waits longer than the configured seconds, unless the
    duration wraps around from below. *)
Lemma timer_within_timeout (T : Z) :
  Int64.min_int <= T * 1000000000 ->
  Z.max 0 (Int64.mul Second T) <= Z.max 0 (T * 1000000000).
Proof.
  intro Hlow. unfold Int64.mul, Second.
  destruct (Z_le_gt_dec (T * 1000000000) Int64.max_int) as [Hle | Hgt].
  - rewrite wrap_in_range by (unfold Int64.in_range; lia). lia.
  - pose proof (wrap_le_max (1000000000 * T)). lia.
Qed.

(** C4 (as amended). For every run with a validated configuration whose
    timeout [T], in seconds, is such that [T * 10^9] nanoseconds is not
    below the signed 64-bit range (every timeout from -9223372036 on), if
    the message of the pipeline is not available within [T] seconds of
    waiting, the entry point adds the single result UNKNOWN with the text
    connection timeout, whatever the pipeline produces. *)
Theorem timeout_is_unknown :
  forall (cfg : Config) (w : World),
    validated cfg ->
    Int64.min_int <= timeout cfg * 1000000000 ->
    not_within (send_ready w) (timeout cfg) ->
    exists run,
      main cfg w = Some run
      /\ results run = [(nagiosplugin.UNKNOWN, Plain "connection timeout")]
      /\ consumed run = [TimedOut].
Proof.
  intros cfg w Hval Hlow Hlate.
  destruct (main_validated cfg w Hval) as [es Hrun]. cbn zeta in Hrun.
  assert (Hsel : select (sent es) (send_ready w) (Int64.mul Second (timeout cfg))
                   (coin w) = TimedOut).
  { unfold select. destruct (sent es) as [| m ms]; [reflexivity |].
    unfold not_within in Hlate. destruct (send_ready w) as [a |]; [| reflexivity].
    pose proof (timer_within_timeout (timeout cfg) Hlow) as Htimer.
    destruct (Z.ltb_spec (Z.of_N a) (Z.max 0 (Int64.mul Second (timeout cfg))));
      [lia |].
    destruct (Z.ltb_spec (Z.max 0 (Int64.mul Second (timeout cfg))) (Z.of_N a));
      [reflexivity | lia]. }
  rewrite Hsel in Hrun. eexists. split; [exact Hrun |]. split; reflexivity.
Qed.

Lemma timeout_is_unknown_witness :
  exists run,
    main (sample_config 100 "gt" 20)
      (sample_world (Answer (mkResponse 200 "200 OK") (sample_body "150"))
         (Some 20000000001%N))
    = Some run
    /\ results run = [(nagiosplugin.UNKNOWN, Plain "connection timeout")]
    /\ consumed run = [TimedOut].
Proof.
  apply (timeout_is_unknown (sample_config 100 "gt" 20)
           (sample_world (Answer (mkResponse 200 "200 OK") (sample_body "150"))
              (Some 20000000001%N))).
  - split; [left; reflexivity | discriminate].
  - vm_compute. discriminate.
  - vm_compute. reflexivity.
Defined.

(** C4, as stated, fails for a timeout of -9223372037 seconds: the duration
    handed to the timer wraps around to about 292 years, and a message that
    is ready after one second is received. *)
Lemma timeout_is_unknown_counterexample :
  validated (sample_config 10 "lt" (-9223372037))
  /\ not_within (Some 1000000000%N) (-9223372037)
  /\ Int64.mul Second (-9223372037) = 9223372036709551616
  /\ exists run,
       main (sample_config 10 "lt" (-9223372037))
         (sample_world (Answer (mkResponse 200 "200 OK") (sample_body "10"))
            (Some 1000000000%N))
       = Some run
       /\ results run = [(nagiosplugin.OK, Entries 10 "*" 10 5)]
       /\ results run <> [(nagiosplugin.UNKNOWN, Plain "connection timeout")].
Proof.
  split; [| split; [| split]].
  - split; [right; reflexivity | discriminate].
  - vm_compute. reflexivity.
  - vm_compute. reflexivity.
  - destruct (main_runs (sample_config 10 "lt" (-9223372037))
                (sample_world (Answer (mkResponse 200 "200 OK") (sample_body "10"))
                   (Some 1000000000%N))) as [run Hrun].
    exists run. split; [exact Hrun |].
    revert Hrun. vm_compute. intro H. injection H as <-.
    split; [reflexivity | discriminate].
Qed.

(** ** End-to-end scenarios *)

Example scenario_count_above_threshold :
  option_map results
    (main (sample_config 100 "gt" 20)
       (sample_world (Answer (mkResponse 200 "200 OK") (sample_body "150")) (Some 5%N)))
  = Some [(nagiosplugin.OK, Entries 150 "*" 100 5)].
Proof. vm_compute. reflexivity. Qed.

Example scenario_count_below_threshold :
  option_map results
    (main (sample_config 100 "gt" 20)
       (sample_world (Answer (mkResponse 200 "200 OK") (sample_body "50")) (Some 5%N)))
  = Some [(nagiosplugin.CRITICAL, Entries 50 "*" 100 5)].
Proof. vm_compute. reflexivity. Qed.

Example scenario_server_error :
  option_map results
    (main (sample_config 100 "gt" 20)
       (sample_world (Answer (mkResponse 500 "500 Internal Server Error") EmptyString)
          (Some 5%N)))
  = Some [(nagiosplugin.UNKNOWN, Plain "HTTP response code: 500 Internal Server Error")].
Proof. vm_compute. reflexivity. Qed.

Example scenario_body_is_not_json :
  option_map results
    (main (sample_config 100 "gt" 20)
       (sample_world (Answer (mkResponse 200 "200 OK") "<html>") (Some 5%N)))
  = Some [(nagiosplugin.UNKNOWN, Plain "JSON parse failed")].
Proof. vm_compute. reflexivity. Qed.

Example scenario_empty_object_counts_zero :
  option_map results
    (main (sample_config 100 "gt" 20)
       (sample_world (Answer (mkResponse 200 "200 OK") "{}") (Some 5%N)))
  = Some [(nagiosplugin.CRITICAL, Entries 0 "*" 100 5)].
Proof. vm_compute. reflexivity. Qed.

(** * Further properties of the code *)

(** ** Query escaping *)

Lemma escape_quotes_guarded (s : string) :
  forall after_backslash, quotes_guarded after_backslash (escape_quotes s) = true.
Proof.
  induction s as [| c r IH]; intro p; [reflexivity |].
  cbn [escape_quotes]. unfold escape_byte.
  destruct (Ascii.eqb c dquote) eqn:Hc.
  - cbn. apply IH.
  - cbn [append quotes_guarded]. rewrite Hc. apply IH.
Qed.

Lemma normalizeEsQuery_unfold (str : string) :
  normalizeEsQuery str = escape_quotes str.
Proof.
  unfold normalizeEsQuery, strings.Replace. simpl.
  induction str as [| c r IH]; simpl; [reflexivity |].
  unfold escape_byte. destruct (Ascii.eqb c dquote); simpl; now rewrite IH.
Qed.

(** X1. In the escaped query no double quote is left bare: each one comes
    right after a backslash. *)
Theorem normalizeEsQuery_leaves_no_bare_quote :
  forall str : string, quotes_guarded false (normalizeEsQuery str) = true.
Proof.
  intro str. rewrite normalizeEsQuery_unfold. apply escape_quotes_guarded.
Qed.

Lemma escape_quotes_cons (c : ascii) (r : string) :
  escape_quotes (String c r)
  = if Ascii.eqb c dquote then String backslash (String dquote (escape_quotes r))
    else String c (escape_quotes r).
Proof.
  cbn [escape_quotes]. unfold escape_byte. destruct (Ascii.eqb c dquote); reflexivity.
Qed.

Lemma escape_quotes_head (s : string) (r : string) :
  escape_quotes s <> String dquote r.
Proof.
  destruct s as [| c s]; [discriminate |].
  rewrite escape_quotes_cons. destruct (Ascii.eqb c dquote) eqn:Hc.
  - discriminate.
  - intro H. injection H as H _. subst c. discriminate Hc.
Qed.

Lemma escape_quotes_injective (a : string) :
  forall b, escape_quotes a = escape_quotes b -> a = b.
Proof.
  induction a as [| c a IH]; intros [| d b] H.
  - reflexivity.
  - rewrite escape_quotes_cons in H. destruct (Ascii.eqb d dquote); discriminate H.
  - rewrite escape_quotes_cons in H. destruct (Ascii.eqb c dquote); discriminate H.
  - rewrite !escape_quotes_cons in H.
    destruct (Ascii.eqb c dquote) eqn:Hc, (Ascii.eqb d dquote) eqn:Hd.
    + apply Ascii.eqb_eq in Hc, Hd. subst c d.
      injection H as H. f_equal. now apply IH.
    + injection H as H1 H2. subst d.
      symmetry in H2. now apply escape_quotes_head in H2.
    + injection H as H1 H2. subst c.
      now apply escape_quotes_head in H2.
    + injection H as H1 H2. subst d. f_equal. now apply IH.
Qed.

(** X2. Escaping loses nothing: two queries with the same escaped form are
    the same query. *)
Theorem normalizeEsQuery_injective :
  forall a b : string, normalizeEsQuery a = normalizeEsQuery b -> a = b.
Proof.
  intros a b. rewrite !normalizeEsQuery_unfold. apply escape_quotes_injective.
Qed.

Lemma normalizeEsQuery_injective_witness :
  String dquote "a" = String dquote "a".
Proof.
  apply (normalizeEsQuery_injective (String dquote "a") (String dquote "a")).
  reflexivity.
Defined.

Lemma escape_quotes_length (s : string) :
  String.length (escape_quotes s) = (String.length s + count_byte dquote s)%nat.
Proof.
  induction s as [| c r IH]; [reflexivity |].
  rewrite escape_quotes_cons. cbn [count_byte String.length].
  destruct (Ascii.eqb c dquote); cbn [String.length]; rewrite IH; lia.
Qed.

(** X3. The escaped query is longer than the query by one byte per double
    quote; it is the query itself exactly when the query holds no double
    quote (the empty query included). *)
Theorem normalizeEsQuery_length :
  forall str : string,
    String.length (normalizeEsQuery str)
    = (String.length str + count_byte dquote str)%nat
    /\ (normalizeEsQuery str = str <-> count_byte dquote str = O).
Proof.
  intro str. rewrite normalizeEsQuery_unfold. split.
  - apply escape_quotes_length.
  - split.
    + intro H. pose proof (escape_quotes_length str) as Hl. rewrite H in Hl. lia.
    + induction str as [| c r IH]; [reflexivity |].
      rewrite escape_quotes_cons. cbn [count_byte].
      destruct (Ascii.eqb c dquote); [discriminate |].
      intro H. f_equal. apply IH. exact H.
Qed.

(** ** The result parser *)





(** X5. [parseResult] reads nothing but the [hits.total] fields and the
    kinds of the top-level value and of the [hits] members: two valid
    documents that agree on these give the same result and the same error. *)
Theorem parseResult_ignores_other_fields :
  forall (data data' : string) (v v' : json.value),
    json.parse data = Some v ->
    json.parse data' = Some v' ->
    shape.object_or_null v = shape.object_or_null v' ->
    forallb shape.object_or_null (shape.hits_fields v)
    = forallb shape.object_or_null (shape.hits_fields v') ->
    shape.total_fields v = shape.total_fields v' ->
    parseResult data = parseResult data'.
Proof.
  intros data data' v v' Hp Hp' Htop Hhits Htotal.
  rewrite (parseResult_decodable data v Hp), (parseResult_decodable data' v' Hp').
  unfold shape.fits, shape.total. now rewrite Htop, Hhits, Htotal.
Qed.

Lemma parseResult_ignores_other_fields_witness :
  parseResult (sample_body "7")
  = parseResult ("{" ++ dq ++ "hits" ++ dq ++ ":{" ++ dq ++ "max_score" ++ dq
                 ++ ":null," ++ dq ++ "total" ++ dq ++ ":7}}").
Proof.
  eapply parseResult_ignores_other_fields; reflexivity.
Defined.

(** ** The query pipeline, path by path *)

Lemma parseResult_reply (body : string) :
  parseResult body
  = (mkQueryResult (decoded_count body),
     if shape.decodable body then None else Some (Errorf "JSON parse failed")).
Proof.
  unfold decoded_count, shape.decodable.
  destruct (json.parse body) as [v |] eqn:Hp.
  - apply (parseResult_decodable body v Hp).
  - unfold parseResult, Unmarshal. now rewrite Hp.
Qed.

(** Once the template is rendered, the pipeline posts it and sends the
    reply to the outcome of the request. *)
Lemma getQueryResultCount_rendered (w : World)
    (url indexPattern templateSource query tmpl : string) (timeFrom : Z) :
  getRenderedTemplate templateSource query timeFrom = Some (tmpl, None) ->
  getQueryResultCount w url indexPattern templateSource query timeFrom
  = Some ([HttpPost (search_url w url indexPattern) tmpl;
           Send (reply (service w (search_url w url indexPattern) tmpl))], tt).
Proof.
  intro Hr. unfold getQueryResultCount. rewrite Hr.
  unfold esQueryPost, request_End, bind, ret, send, reply.
  fold (search_url w url indexPattern).
  destruct (service w (search_url w url indexPattern) tmpl) as [errs | resp body].
  - reflexivity.
  - destruct (StatusCode resp =? 200); cbn [negb]; [| reflexivity].
    rewrite parseResult_reply. destruct (shape.decodable body); reflexivity.
Qed.

Lemma reply_error_count (r : EndResult) : Err (reply r) <> None -> Count (reply r) = 0.
Proof.
  unfold reply. destruct r as [errs | resp body]; [reflexivity |].
  destruct (StatusCode resp =? 200); [| reflexivity].
  destruct (shape.decodable body); [| reflexivity].
  intro H. now contradiction H.
Qed.

(** X6. A message of the pipeline that carries an error carries the count
    0, on every failing path; a count decoded before the error was found is
    not passed on. *)
Theorem error_message_has_zero_count :
  forall (w : World) (url indexPattern templateSource query : string)
         (timeFrom : Z) (task : Task unit) (m : Msg),
    getQueryResultCount w url indexPattern templateSource query timeFrom = Some task ->
    In m (sent (events task)) ->
    Err m <> None ->
    Count m = 0.
Proof.
  intros w url indexPattern templateSource query timeFrom task m Htask Hin Herr.
  destruct (getRenderedTemplate templateSource query timeFrom)
    as [[tmpl [err |]] |] eqn:Hr.
  - unfold getQueryResultCount in Htask. rewrite Hr in Htask.
    injection Htask as <-. destruct Hin as [<- | []]. reflexivity.
  - rewrite (getQueryResultCount_rendered w url indexPattern templateSource query
               tmpl timeFrom Hr) in Htask.
    injection Htask as <-. destruct Hin as [<- | []].
    now apply reply_error_count.
  - unfold getQueryResultCount in Htask. rewrite Hr in Htask. discriminate Htask.
Qed.

Lemma error_message_has_zero_count_witness :
  Count (mkMsg 0 (Some (Errorf "JSON parse failed"))) = 0.
Proof.
  apply (error_message_has_zero_count
           (sample_world (Answer (mkResponse 200 "200 OK")
                            ("{" ++ dq ++ "hits" ++ dq ++ ":{" ++ dq ++ "total" ++ dq
                             ++ ":5," ++ dq ++ "total" ++ dq ++ ":true}}")) None)
           "u" "i" "{{.Query}}" "*" 0
           ([HttpPost "u/i-2023.11.14/_search" "*";
             Send (mkMsg 0 (Some (Errorf "JSON parse failed")))], tt)).
  - vm_compute. reflexivity.
  - simpl. left. reflexivity.
  - discriminate.
Defined.

(** X7. The pipeline issues a request exactly when the template was
    rendered, and the body of the request is then the rendered text; a
    rendering failure is only reported on the channel. *)
Theorem request_iff_rendered :
  forall (w : World) (url indexPattern templateSource query : string)
         (timeFrom : Z) (task : Task unit),
    getQueryResultCount w url indexPattern templateSource query timeFrom = Some task ->
    (posts (events task) = []
     <-> exists out err,
           getRenderedTemplate templateSource query timeFrom = Some (out, Some err)
           /\ sent (events task) = [mkMsg 0 (Some err)])
    /\ (forall tmpl,
          getRenderedTemplate templateSource query timeFrom = Some (tmpl, None) ->
          map snd (posts (events task)) = [tmpl]).
Proof.
  intros w url indexPattern templateSource query timeFrom task Htask.
  destruct (getRenderedTemplate templateSource query timeFrom)
    as [[tmpl [err |]] |] eqn:Hr.
  - unfold getQueryResultCount in Htask. rewrite Hr in Htask.
    injection Htask as <-. split.
    + split; [| reflexivity]. intros _. exists tmpl, err. split; reflexivity.
    + intros tmpl' H. discriminate H.
  - rewrite (getQueryResultCount_rendered w url indexPattern templateSource query
               tmpl timeFrom Hr) in Htask.
    injection Htask as <-. split.
    + split; [discriminate |]. intros (out & err & H & _). discriminate H.
    + intros tmpl' H. injection H as <-. reflexivity.
  - unfold getQueryResultCount in Htask. rewrite Hr in Htask. discriminate Htask.
Qed.

Lemma request_iff_rendered_witness :
  posts [Send (mkMsg 0 (Some (TemplateFailure (NoSuchField "Missing"))))] = []
  <-> exists out err,
        getRenderedTemplate "{{ .Missing }}" "*" 0 = Some (out, Some err)
        /\ sent [Send (mkMsg 0 (Some (TemplateFailure (NoSuchField "Missing"))))]
           = [mkMsg 0 (Some err)].
Proof.
  apply (request_iff_rendered (sample_world (Errors []) None) "u" "i"
           "{{ .Missing }}" "*" 0
           ([Send (mkMsg 0 (Some (TemplateFailure (NoSuchField "Missing"))))], tt)).
  vm_compute. reflexivity.
Defined.

(** X8. The message of the pipeline carries no error exactly when the
    template was rendered, the request met no transport error, the status
    code was 200 and the body fits a [QueryResult]; its count is then the
    count decoded from the body. *)
Theorem pipeline_succeeds_iff :
  forall (w : World) (url indexPattern templateSource query : string)
         (timeFrom : Z) (task : Task unit) (m : Msg),
    getQueryResultCount w url indexPattern templateSource query timeFrom = Some task ->
    In m (sent (events task)) ->
    (Err m = None
     <-> exists tmpl resp body,
           getRenderedTemplate templateSource query timeFrom = Some (tmpl, None)
           /\ service w (search_url w url indexPattern) tmpl = Answer resp body
           /\ StatusCode resp = 200
           /\ shape.decodable body = true
           /\ Count m = decoded_count body).
Proof.
  intros w url indexPattern templateSource query timeFrom task m Htask Hin.
  destruct (getRenderedTemplate templateSource query timeFrom)
    as [[tmpl [err |]] |] eqn:Hr.
  - unfold getQueryResultCount in Htask. rewrite Hr in Htask.
    injection Htask as <-. destruct Hin as [<- | []]. split.
    + discriminate.
    + intros (tmpl' & resp & body & H & _). discriminate H.
  - rewrite (getQueryResultCount_rendered w url indexPattern templateSource query
               tmpl timeFrom Hr) in Htask.
    injection Htask as <-. destruct Hin as [<- | []].
    unfold reply.
    destruct (service w (search_url w url indexPattern) tmpl)
      as [errs | resp body] eqn:Hs.
    + split; [discriminate |].
      intros (tmpl' & resp & body & H & Hs' & _).
      injection H as <-. rewrite Hs in Hs'. discriminate Hs'.
    + destruct (StatusCode resp =? 200) eqn:Hc.
      * apply Z.eqb_eq in Hc. destruct (shape.decodable body) eqn:Hd.
        -- split; [| reflexivity]. intros _. exists tmpl, resp, body. auto.
        -- split; [discriminate |].
           intros (tmpl' & resp' & body' & H & Hs' & _ & Hd' & _).
           injection H as <-. rewrite Hs in Hs'. injection Hs' as <- <-.
           rewrite Hd in Hd'. discriminate Hd'.
      * apply Z.eqb_neq in Hc. split; [discriminate |].
        intros (tmpl' & resp' & body' & H & Hs' & Hc' & _).
        injection H as <-. rewrite Hs in Hs'. injection Hs' as <- <-.
        contradiction.
  - unfold getQueryResultCount in Htask. rewrite Hr in Htask. discriminate Htask.
Qed.

Lemma pipeline_succeeds_iff_witness :
  Err (mkMsg 150 None) = None
  <-> exists tmpl resp body,
        getRenderedTemplate "{{.Query}}" "*" 0 = Some (tmpl, None)
        /\ service (sample_world (Answer (mkResponse 200 "200 OK") (sample_body "150")) None)
             (search_url (sample_world (Answer (mkResponse 200 "200 OK")
                                          (sample_body "150")) None) "u" "i") tmpl
           = Answer resp body
        /\ StatusCode resp = 200
        /\ shape.decodable body = true
        /\ Count (mkMsg 150 None) = decoded_count body.
Proof.
  apply (pipeline_succeeds_iff
           (sample_world (Answer (mkResponse 200 "200 OK") (sample_body "150")) None)
           "u" "i" "{{.Query}}" "*" 0
           ([HttpPost "u/i-2023.11.14/_search" "*"; Send (mkMsg 150 None)], tt)).
  - vm_compute. reflexivity.
  - simpl. left. reflexivity.
Defined.

(** ** The entry point, end to end *)

(** With a validated configuration the run is the race between the timer
    and the one message of the pipeline. *)
Lemma main_pipeline (cfg : Config) (w : World) :
  validated cfg ->
  let body := filled templateSource_pieces
                (Int64.mul (Int64.sub (start_time w) (Int64.mul 60 (timePeriod cfg)))
                   1000)
                (normalizeEsQuery (esQuery cfg)) in
  let url := search_url w (esURL cfg) (indexPattern cfg) in
  let m := reply (service w url body) in
  let choice := select [m] (send_ready w) (Int64.mul Second (timeout cfg)) (coin w) in
  main cfg w
  = Some (mkRun
            match choice with
            | Received msg => on_message cfg msg
            | TimedOut => [(nagiosplugin.UNKNOWN, Plain "connection timeout")]
            end
            (Some [HttpPost url body; Send m]) [choice]).
Proof.
  intros [Hop Hthr]. cbn zeta. unfold main.
  replace (negb (compareOperator cfg =? "lt")%string
           && negb (compareOperator cfg =? "gt")%string) with false
    by (destruct Hop as [-> | ->]; reflexivity).
  apply Z.eqb_neq in Hthr. rewrite Hthr.
  rewrite (getQueryResultCount_rendered w (esURL cfg) (indexPattern cfg)
             templateSource (normalizeEsQuery (esQuery cfg)) _ _
             (render_templateSource _ _)).
  reflexivity.
Qed.

Lemma on_message_one_result (cfg : Config) (msg : Msg) :
  validated cfg ->
  exists st txt,
    on_message cfg msg = [(st, txt)] /\ st <> nagiosplugin.WARNING.
Proof.
  intro Hval. destruct msg as [count [e |]].
  - eexists. eexists. split; [reflexivity | discriminate].
  - destruct (on_message_verdict cfg count Hval) as (st & Hres & Hok & Hcrit).
    exists st. eexists. split; [exact Hres |].
    intro Hw. subst st.
    unfold on_message in Hres. cbn [Err Count] in Hres.
    destruct (_ || _) in Hres; [discriminate Hres |].
    destruct (_ || _) in Hres; discriminate Hres.
Qed.

Lemma validated_or_not (cfg : Config) :
  validated cfg
  \/ (compareOperator cfg <> "lt" /\ compareOperator cfg <> "gt")
  \/ countThreshold cfg = 0.
Proof.
  unfold validated.
  destruct (Z.eq_dec (countThreshold cfg) 0) as [Hz | Hnz]; [auto |].
  destruct (string_dec (compareOperator cfg) "gt") as [Hgt | Hgt]; [auto |].
  destruct (string_dec (compareOperator cfg) "lt") as [Hlt | Hlt]; auto.
Qed.

Lemma main_invalid (cfg : Config) (w : World) :
  (compareOperator cfg <> "lt" /\ compareOperator cfg <> "gt")
  \/ countThreshold cfg = 0 ->
  exists msg, main cfg w = Some (mkRun [(nagiosplugin.UNKNOWN, Plain msg)] None []).
Proof.
  intro Hbad. unfold main.
  destruct (negb (compareOperator cfg =? "lt")%string
            && negb (compareOperator cfg =? "gt")%string) eqn:Hop.
  - eexists. reflexivity.
  - destruct Hbad as [[Hlt Hgt] | Hzero].
    + apply String.eqb_neq in Hlt, Hgt. rewrite Hlt, Hgt in Hop. discriminate Hop.
    + rewrite Hzero. eexists. reflexivity.
Qed.

(** X9. Every run of the entry point adds exactly one check result,
    whatever the flags, the service and the timing; its severity is OK,
    CRITICAL or UNKNOWN, never WARNING. *)
Theorem main_reports_once :
  forall (cfg : Config) (w : World),
    exists run st txt,
      main cfg w = Some run
      /\ results run = [(st, txt)]
      /\ st <> nagiosplugin.WARNING.
Proof.
  intros cfg w. destruct (validated_or_not cfg) as [Hval | Hbad].
  - pose proof (main_pipeline cfg w Hval) as Hrun. cbn zeta in Hrun.
    destruct (select _ _ _ _) as [msg |] in Hrun.
    + destruct (on_message_one_result cfg msg Hval) as (st & txt & Hres & Hst).
      eexists. exists st, txt. split; [exact Hrun |]. split; assumption.
    + eexists. eexists. eexists. split; [exact Hrun |].
      split; [reflexivity | discriminate].
  - destruct (main_invalid cfg w Hbad) as [msg Hrun].
    eexists. eexists. eexists. split; [exact Hrun |].
    split; [reflexivity | discriminate].
Qed.

Lemma select_received (m0 m : Msg) (ready : option N) (d : Z) (c : bool) :
  select [m0] ready d c = Received m -> m = m0.
Proof.
  unfold select. destruct ready as [a |]; [| discriminate].
  destruct (Z.of_N a <? Z.max 0 d); [intro H; now injection H |].
  destruct (Z.max 0 d <? Z.of_N a); [discriminate |].
  destruct c; [intro H; now injection H | discriminate].
Qed.

(** What a run that received the message did: one request, and the results
    the message gives. *)
Lemma main_received (cfg : Config) (w : World) (run : Run) (m : Msg) :
  validated cfg ->
  main cfg w = Some run ->
  consumed run = [Received m] ->
  exists url body,
    requests run = [(url, body)]
    /\ m = reply (service w url body)
    /\ results run = on_message cfg m.
Proof.
  intros Hval Hmain Hcons.
  rewrite (main_pipeline cfg w Hval) in Hmain. cbn zeta in Hmain.
  injection Hmain as <-. cbn [consumed results requests spawned posts flat_map app] in *.
  injection Hcons as Hsel. rewrite Hsel.
  apply select_received in Hsel.
  eexists. eexists. split; [reflexivity |]. split; [exact Hsel | reflexivity].
Qed.

(** X10. With a validated configuration and a timeout whose nanoseconds fit
    64 bits, a message of the pipeline that is ready before the timeout
    expires is the one the entry point consumes: the timer does not win. *)
Theorem early_message_is_received :
  forall (cfg : Config) (w : World) (a : N),
    validated cfg ->
    timeout cfg * 1000000000 <= Int64.max_int ->
    send_ready w = Some a ->
    Z.of_N a < timeout cfg * 1000000000 ->
    exists run m es,
      main cfg w = Some run
      /\ spawned run = Some es
      /\ sent es = [m]
      /\ consumed run = [Received m].
Proof.
  intros cfg w a Hval Hmax Hready Hearly.
  pose proof (main_pipeline cfg w Hval) as Hrun. cbn zeta in Hrun.
  assert (Hd : Int64.mul Second (timeout cfg) = timeout cfg * 1000000000).
  { unfold Int64.mul, Second. rewrite wrap_in_range; [lia |].
    unfold Int64.in_range, Int64.min_int. lia. }
  rewrite Hready, Hd in Hrun. unfold select in Hrun.
  destruct (Z.ltb_spec (Z.of_N a) (Z.max 0 (timeout cfg * 1000000000))) as [_ | Hge];
    [| lia].
  eexists. eexists. eexists. split; [exact Hrun |].
  split; [reflexivity |]. split; reflexivity.
Qed.

Lemma early_message_is_received_witness :
  exists run m es,
    main (sample_config 100 "gt" 20)
      (sample_world (Answer (mkResponse 200 "200 OK") (sample_body "150"))
         (Some 19999999999%N)) = Some run
    /\ spawned run = Some es
    /\ sent es = [m]
    /\ consumed run = [Received m].
Proof.
  apply (early_message_is_received (sample_config 100 "gt" 20)
           (sample_world (Answer (mkResponse 200 "200 OK") (sample_body "150"))
              (Some 19999999999%N)) 19999999999%N).
  - split; [left; reflexivity | discriminate].
  - vm_compute. discriminate.
  - reflexivity.
  - vm_compute. reflexivity.
Defined.

(** X11. When the message is received and the request failed, the result
    is UNKNOWN and its text tells the failure: the descriptions of the
    transport errors joined by a comma and a space, the status line after a
    fixed prefix for a status code other than 200, and a fixed text for a
    body that does not decode. *)
Theorem request_failure_is_unknown :
  forall (cfg : Config) (w : World) (run : Run) (m : Msg),
    validated cfg ->
    main cfg w = Some run ->
    consumed run = [Received m] ->
    exists url body,
      requests run = [(url, body)]
      /\ (forall errs,
            service w url body = Errors errs ->
            results run = [(nagiosplugin.UNKNOWN, Plain (strings.Join errs ", "))])
      /\ (forall resp answer,
            service w url body = Answer resp answer ->
            StatusCode resp <> 200 ->
            results run
            = [(nagiosplugin.UNKNOWN, Plain ("HTTP response code: " ++ Status resp))])
      /\ (forall resp answer,
            service w url body = Answer resp answer ->
            StatusCode resp = 200 ->
            shape.decodable answer = false ->
            results run = [(nagiosplugin.UNKNOWN, Plain "JSON parse failed")]).
Proof.
  intros cfg w run m Hval Hmain Hcons.
  destruct (main_received cfg w run m Hval Hmain Hcons)
    as (url & body & Hreq & Hm & Hres).
  exists url, body. split; [exact Hreq |].
  rewrite Hres, Hm. unfold reply. split; [| split].
  - intros errs ->. reflexivity.
  - intros resp answer -> Hc. apply Z.eqb_neq in Hc. rewrite Hc. reflexivity.
  - intros resp answer -> Hc Hd. apply Z.eqb_eq in Hc. rewrite Hc, Hd. reflexivity.
Qed.

Lemma request_failure_is_unknown_witness :
  exists run,
    main (sample_config 100 "gt" 20)
      (sample_world (Answer (mkResponse 503 "503 Service Unavailable") EmptyString)
         (Some 5%N)) = Some run
    /\ results run
       = [(nagiosplugin.UNKNOWN, Plain "HTTP response code: 503 Service Unavailable")].
Proof.
  destruct (main_runs (sample_config 100 "gt" 20)
              (sample_world (Answer (mkResponse 503 "503 Service Unavailable") EmptyString)
                 (Some 5%N))) as [run Hrun].
  exists run. split; [exact Hrun |].
  destruct (request_failure_is_unknown (sample_config 100 "gt" 20)
              (sample_world (Answer (mkResponse 503 "503 Service Unavailable") EmptyString)
                 (Some 5%N))
              run (mkMsg 0 (Some (Errorf "HTTP response code: 503 Service Unavailable"))))
    as (url & body & _ & _ & Hstatus & _).
  - split; [left; reflexivity | discriminate].
  - exact Hrun.
  - revert Hrun. vm_compute. intro H. injection H as <-. reflexivity.
  - apply (Hstatus (mkResponse 503 "503 Service Unavailable") EmptyString).
    + reflexivity.
    + discriminate.
Defined.

(** X12. When the message is received, the status code is 200 and the body
    decodes, the single result carries the decoded count, the query as it
    was given on the command line (not its escaped form), the threshold and
    the period, and its severity compares the decoded count with the
    threshold as the operator says. *)
Theorem decoded_count_decides :
  forall (cfg : Config) (w : World) (run : Run) (m : Msg),
    validated cfg ->
    main cfg w = Some run ->
    consumed run = [Received m] ->
    exists url body,
      requests run = [(url, body)]
      /\ forall resp answer,
           service w url body = Answer resp answer ->
           StatusCode resp = 200 ->
           shape.decodable answer = true ->
           exists st,
             results run
             = [(st, Entries (decoded_count answer) (esQuery cfg)
                       (countThreshold cfg) (timePeriod cfg))]
             /\ (st = nagiosplugin.OK
                 <-> (compareOperator cfg = "gt"
                      /\ decoded_count answer >= countThreshold cfg)
                     \/ (compareOperator cfg = "lt"
                         /\ decoded_count answer <= countThreshold cfg))
             /\ (st = nagiosplugin.CRITICAL
                 <-> (compareOperator cfg = "gt"
                      /\ decoded_count answer < countThreshold cfg)
                     \/ (compareOperator cfg = "lt"
                         /\ decoded_count answer > countThreshold cfg)).
Proof.
  intros cfg w run m Hval Hmain Hcons.
  destruct (main_received cfg w run m Hval Hmain Hcons)
    as (url & body & Hreq & Hm & Hres).
  exists url, body. split; [exact Hreq |].
  intros resp answer Hs Hc Hd.
  rewrite Hres, Hm. unfold reply. rewrite Hs.
  apply Z.eqb_eq in Hc. rewrite Hc, Hd.
  apply on_message_verdict. exact Hval.
Qed.

Lemma decoded_count_decides_witness :
  exists run,
    main (sample_config 100 "gt" 20)
      (sample_world (Answer (mkResponse 200 "200 OK") (sample_body "99")) (Some 5%N))
    = Some run
    /\ results run = [(nagiosplugin.CRITICAL, Entries 99 "*" 100 5)].
Proof.
  destruct (main_runs (sample_config 100 "gt" 20)
              (sample_world (Answer (mkResponse 200 "200 OK") (sample_body "99"))
                 (Some 5%N))) as [run Hrun].
  exists run. split; [exact Hrun |].
  destruct (decoded_count_decides (sample_config 100 "gt" 20)
              (sample_world (Answer (mkResponse 200 "200 OK") (sample_body "99"))
                 (Some 5%N))
              run (mkMsg 99 None))
    as (url & body & _ & Hverdict).
  - split; [left; reflexivity | discriminate].
  - exact Hrun.
  - revert Hrun. vm_compute. intro H. injection H as <-. reflexivity.
  - destruct (Hverdict (mkResponse 200 "200 OK") (sample_body "99"))
      as (st & Hres & _ & Hcrit).
    + reflexivity.
    + reflexivity.
    + reflexivity.
    + rewrite Hres. replace st with nagiosplugin.CRITICAL; [reflexivity |].
      symmetry. apply Hcrit. left. split; [reflexivity |].
      vm_compute. reflexivity.
Defined.

(** X13. With a validated configuration, and when the arithmetic on the
    clock does not leave the 64-bit range, the run issues one request: to
    the search URL of the day, with [templateSource] filled with the escaped
    query and with the lower bound of the time range, the start time minus
    60 seconds per minute of the period, in milliseconds. *)
Theorem request_of_run :
  forall (cfg : Config) (w : World),
    validated cfg ->
    Int64.in_range (60 * timePeriod cfg) ->
    Int64.in_range (start_time w - 60 * timePeriod cfg) ->
    Int64.in_range ((start_time w - 60 * timePeriod cfg) * 1000) ->
    exists run,
      main cfg w = Some run
      /\ requests run
         = [(esURL cfg ++ "/" ++ indexPattern cfg ++ "-"
             ++ time.Format_2006_01_02 (request_date w) ++ "/_search",
             filled templateSource_pieces
               ((start_time w - 60 * timePeriod cfg) * 1000)
               (escape_quotes (esQuery cfg)))].
Proof.
  intros cfg w Hval H60 Hsub Hmul.
  pose proof (main_pipeline cfg w Hval) as Hrun. cbn zeta in Hrun.
  eexists. split; [exact Hrun |].
  cbn [requests spawned posts flat_map app]. unfold search_url.
  unfold Int64.mul, Int64.sub.
  rewrite (wrap_in_range _ H60), (wrap_in_range _ Hsub), (wrap_in_range _ Hmul).
  now rewrite normalizeEsQuery_unfold.
Qed.

Lemma request_of_run_witness :
  exists run,
    main (sample_config 100 "gt" 20) (sample_world (Errors []) None) = Some run
    /\ requests run
       = [("http://localhost:9200/logstash-*-2023.11.14/_search",
           filled templateSource_pieces 1699999700000 "*")].
Proof.
  destruct (request_of_run (sample_config 100 "gt" 20) (sample_world (Errors []) None))
    as (run & Hrun & Hreq).
  - split; [left; reflexivity | discriminate].
  - vm_compute. split; discriminate.
  - vm_compute. split; discriminate.
  - vm_compute. split; discriminate.
  - exists run. split; [exact Hrun |]. rewrite Hreq. reflexivity.
Defined.

(** ** The renderer, beyond the range of the milliseconds *)

Lemma wrap_range (z : Z) : Int64.in_range (Int64.wrap z).
Proof.
  unfold Int64.in_range, Int64.wrap, Int64.min_int, Int64.max_int.
  pose proof (Z.mod_pos_bound (z + 2 ^ 63) (2 ^ 64) ltac:(lia)). lia.
Qed.

Lemma wrap_congruent (z : Z) : exists k, Int64.wrap z = z + k * 2 ^ 64.
Proof.
  exists (- ((z + 2 ^ 63) / 2 ^ 64)). unfold Int64.wrap.
  pose proof (Z.div_mod (z + 2 ^ 63) (2 ^ 64) ltac:(lia)). lia.
Qed.

(** X14. For every lower time bound, in range or not, the value written at
    the time placeholder is a signed 64-bit integer that differs from the
    bound times 1000 by a multiple of 2^64: the renderer never fails on the
    bound and never writes a number outside the 64-bit range. *)
Theorem getRenderedTemplate_wraps :
  forall (ps : list piece) (query : string) (T : Z),
    well_formed ps = true ->
    exists millis k,
      Int64.in_range millis
      /\ millis = T * 1000 + k * 2 ^ 64
      /\ getRenderedTemplate (skeleton ps) query T
         = Some (filled ps millis query, None).
Proof.
  intros ps query T Hwf.
  destruct (wrap_congruent (T * 1000)) as [k Hk].
  exists (Int64.wrap (T * 1000)), k. split; [apply wrap_range |].
  split; [exact Hk |].
  apply (getRenderedTemplate_skeleton ps query T Hwf).
Qed.

Lemma getRenderedTemplate_wraps_witness :
  exists millis k,
    Int64.in_range millis
    /\ millis = 9223372036854776 * 1000 + k * 2 ^ 64
    /\ getRenderedTemplate "gte: {{ .TimeFrom }}" "*" 9223372036854776
       = Some (filled [Lit "gte: "; TimePlaceholder 1 1] millis "*", None).
Proof.
  apply (getRenderedTemplate_wraps [Lit "gte: "; TimePlaceholder 1 1] "*"
           9223372036854776).
  reflexivity.
Defined.

Lemma Execute_known (nodes : list template.node) (d : TemplateESQuery) :
  forall buf,
    (exists out, execute.Execute nodes d buf = inl out)
    <-> forallb known_field (printed_fields nodes) = true.
Proof.
  induction nodes as [| n nodes IH]; intro buf.
  - split; [reflexivity | intros _; now exists buf].
  - destruct n as [s | name].
    + apply IH.
    + cbn [execute.Execute printed_fields flat_map app forallb].
      unfold execute.eval_field, known_field at 1.
      destruct (String.eqb name "TimeFrom"); [apply IH |].
      destruct (String.eqb name "Query"); [apply IH |].
      split; [intros [out H]; discriminate H | discriminate].
Qed.

(** X15. For a template of the modelled fragment, rendering fails exactly
    when the template ends inside an action or prints a field other than
    [TimeFrom] and [Query]; a failed rendering returns the empty string,
    not the text written before the failure. *)
Theorem getRenderedTemplate_fails_iff :
  forall (templateSource query out : string) (timeFrom : Z) (result : option error),
    getRenderedTemplate templateSource query timeFrom = Some (out, result) ->
    (result <> None -> out = EmptyString)
    /\ (result = None
        <-> exists nodes,
              template.Parse templateSource = template.Tree nodes
              /\ forallb known_field (printed_fields nodes) = true).
Proof.
  intros templateSource query out timeFrom result. unfold getRenderedTemplate.
  destruct (template.Parse templateSource) as [nodes | e |] eqn:Hp.
  - pose proof (Execute_known nodes
                  (mkTemplateESQuery (Int64.mul timeFrom 1000) query) EmptyString)
      as Hk.
    destruct (execute.Execute nodes _ EmptyString) as [tpl | err].
    + intro H. injection H as <- <-. split; [intro Hn; now contradiction Hn |].
      split; [| reflexivity]. intros _. exists nodes. split; [reflexivity |].
      apply Hk. now exists tpl.
    + intro H. injection H as <- <-. split; [reflexivity |].
      split; [discriminate |].
      intros (nodes' & Hn & Hall). injection Hn as <-.
      apply Hk in Hall. destruct Hall as [o Ho]. discriminate Ho.
  - intro H. injection H as <- <-. split; [reflexivity |].
    split; [discriminate |]. intros (nodes & Hn & _). discriminate Hn.
  - discriminate.
Qed.

Lemma getRenderedTemplate_fails_iff_witness :
  (Some (TemplateFailure (NoSuchField "Size")) <> None -> EmptyString = EmptyString)
  /\ (Some (TemplateFailure (NoSuchField "Size")) = None
      <-> exists nodes,
            template.Parse "size: {{ .Size }}" = template.Tree nodes
            /\ forallb known_field (printed_fields nodes) = true).
Proof.
  apply (getRenderedTemplate_fails_iff "size: {{ .Size }}" "*" EmptyString 0).
  reflexivity.
Defined.

(** ** The request body is the JSON document it is meant to be *)

Lemma to_uint_normal (p : positive) : Decimal.unorm (Pos.to_uint p) = Pos.to_uint p.
Proof.
  rewrite <- (DecimalPos.Unsigned.to_of (Pos.to_uint p)), DecimalPos.Unsigned.of_to. reflexivity.
Qed.

Lemma step_digit (c : ascii) (lit : list ascii) (stk : list json.frame) :
  json.isDigit c = true ->
  json.step (json.mkScanner (json.InNumber json.Digits lit) stk None) c
  = Some (json.mkScanner (json.InNumber json.Digits (c :: lit)) stk None).
Proof. intro H. unfold json.step, json.stateNumber. cbn. now rewrite H. Qed.

Lemma scan_digits (u : Decimal.uint) :
  forall lit stk,
    json.scan (json.mkScanner (json.InNumber json.Digits lit) stk None)
      (NilEmpty.string_of_uint u)
    = Some (json.mkScanner
              (json.InNumber json.Digits
                 (rev (bytes (NilEmpty.string_of_uint u)) ++ lit)%list) stk None).
Proof.
  induction u; intros lit stk; cbn [NilEmpty.string_of_uint json.scan];
    [reflexivity | ..];
    (rewrite step_digit by reflexivity; rewrite IHu; cbn [bytes rev];
     now rewrite <- app_assoc).
Qed.

(** The first digit of a normal numeral other than zero is not 0. *)
Lemma normal_head (u : Decimal.uint) :
  Decimal.unorm u = u -> u <> Decimal.zero -> u <> Decimal.Nil ->
  exists c r, NilEmpty.string_of_uint u = String c (NilEmpty.string_of_uint r)
              /\ json.isDigit19 c = true.
Proof.
  intros Hn Hz Hnil. destruct u; try (eexists; eexists; split; reflexivity).
  - contradiction.
  - exfalso. destruct (Decimal.uint_eq_dec u Decimal.Nil) as [-> | Hu].
    + now apply Hz.
    + rewrite DecimalFacts.unorm_D0 in Hn. pose proof (DecimalFacts.nb_digits_unorm u Hu) as H.
      rewrite Hn in H. cbn in H. lia.
Qed.

Lemma step_first_digit (c : ascii) (stk : list json.frame) :
  json.isDigit19 c = true ->
  json.step (json.mkScanner json.BeginValue stk None) c
  = Some (json.mkScanner (json.InNumber json.Digits [c]) stk None).
Proof.
  destruct c as [[] [] [] [] [] [] [] []]; intro H; try discriminate H; reflexivity.
Qed.

Lemma step_digit_after_minus (c : ascii) (stk : list json.frame) :
  json.isDigit19 c = true ->
  json.step (json.mkScanner (json.InNumber json.Neg ["-"%char]) stk None) c
  = Some (json.mkScanner (json.InNumber json.Digits [c; "-"%char]) stk None).
Proof.
  destruct c as [[] [] [] [] [] [] [] []]; intro H; try discriminate H; reflexivity.
Qed.

Lemma scan_positive (p : positive) (sign : list ascii) (s0 : json.scanner)
    (stk : list json.frame) :
  (forall c, json.isDigit19 c = true ->
             json.step s0 c
             = Some (json.mkScanner (json.InNumber json.Digits (c :: sign)) stk None)) ->
  exists lit,
    json.scan s0 (NilZero.string_of_uint (Pos.to_uint p))
    = Some (json.mkScanner (json.InNumber json.Digits lit) stk None)
    /\ of_bytes (rev lit)
       = of_bytes (rev sign) ++ NilZero.string_of_uint (Pos.to_uint p).
Proof.
  intro Hs0.
  destruct (normal_head (Pos.to_uint p) (to_uint_normal p)
              (DecimalPos.Unsigned.to_uint_nonzero p) (DecimalPos.Unsigned.to_uint_nonnil p))
    as (c & r & Hstr & Hc).
  assert (Hz : NilZero.string_of_uint (Pos.to_uint p)
               = NilEmpty.string_of_uint (Pos.to_uint p)).
  { pose proof (DecimalPos.Unsigned.to_uint_nonnil p). now destruct (Pos.to_uint p). }
  rewrite Hz, Hstr. cbn [json.scan]. rewrite (Hs0 c Hc), scan_digits.
  eexists. split; [reflexivity |].
  rewrite rev_app_distr, rev_involutive. cbn [rev].
  rewrite !of_bytes_app, of_bytes_bytes. cbn [of_bytes app].
  now rewrite string_app_assoc.
Qed.

(** The decimal writing of an integer is read as one JSON number. *)
Lemma scan_decimal (z : Z) (stk : list json.frame) :
  exists st lit,
    (st = json.Zero \/ st = json.Digits)
    /\ json.scan (json.mkScanner json.BeginValue stk None) (decimal z)
       = Some (json.mkScanner (json.InNumber st lit) stk None)
    /\ of_bytes (rev lit) = decimal z.
Proof.
  unfold decimal. destruct z as [| p | p]; cbn [Z.to_int NilZero.string_of_int].
  - exists json.Zero, ["0"%char]. split; [now left |]. split; reflexivity.
  - destruct (scan_positive p [] (json.mkScanner json.BeginValue stk None) stk)
      as (lit & Hscan & Hlit).
    + intros c Hc. now apply step_first_digit.
    + exists json.Digits, lit. split; [now right |]. split; [exact Hscan | exact Hlit].
  - destruct (scan_positive p ["-"%char]
                (json.mkScanner (json.InNumber json.Neg ["-"%char]) stk None) stk)
      as (lit & Hscan & Hlit).
    + intros c Hc. now apply step_digit_after_minus.
    + exists json.Digits, lit. split; [now right |]. split; [| exact Hlit].
      cbn [json.scan]. change (json.step _ "-"%char)
        with (Some (json.mkScanner (json.InNumber json.Neg ["-"%char]) stk None)).
      exact Hscan.
Qed.

Lemma step_plain (c : ascii) (raw : list ascii) (stk : list json.frame) :
  plain_byte c = true -> Ascii.eqb c dquote = false ->
  json.step (json.mkScanner (json.InString raw) stk None) c
  = Some (json.mkScanner (json.InString (c :: raw)) stk None).
Proof.
  unfold plain_byte. intros Hp Hq. apply andb_prop in Hp. destruct Hp as [Hr Hb].
  apply andb_prop in Hr. destruct Hr as [Hlo _].
  unfold json.step. cbn [json.state json.parseState]. rewrite Hq.
  apply negb_true_iff in Hb. rewrite Hb.
  replace (nat_of_ascii c <? 32)%nat with false; [reflexivity |].
  symmetry. apply Nat.ltb_ge. now apply Nat.leb_le.
Qed.

(** An escaped plain query stays inside the string literal it is written in. *)
Lemma scan_escaped (q : string) :
  forall raw stk,
    plain_query q = true ->
    json.scan (json.mkScanner (json.InString raw) stk None) (escape_quotes q)
    = Some (json.mkScanner
              (json.InString (rev (bytes (escape_quotes q)) ++ raw)%list) stk None).
Proof.
  induction q as [| c r IH]; intros raw stk Hp; [reflexivity |].
  cbn [plain_query] in Hp. apply andb_prop in Hp. destruct Hp as [Hc Hr].
  rewrite escape_quotes_cons. destruct (Ascii.eqb c dquote) eqn:Hq.
  - cbn [json.scan].
    change (json.step _ backslash)
      with (Some (json.mkScanner (json.InStringEsc (backslash :: raw)) stk None)).
    cbv beta iota.
    change (json.step _ dquote)
      with (Some (json.mkScanner (json.InString (dquote :: backslash :: raw)) stk None)).
    cbv beta iota. rewrite (IH _ stk Hr). cbn [bytes rev].
    now rewrite <- !app_assoc.
  - cbn [json.scan]. rewrite (step_plain c raw stk Hc Hq), (IH _ stk Hr).
    cbn [bytes rev]. now rewrite <- app_assoc.
Qed.

Lemma unquote_escaped (q : string) :
  plain_query q = true -> json.unquote (escape_quotes q) = q.
Proof.
  induction q as [| c r IH]; intro Hp; [reflexivity |].
  cbn [plain_query] in Hp. apply andb_prop in Hp. destruct Hp as [Hc Hr].
  rewrite escape_quotes_cons. destruct (Ascii.eqb c dquote) eqn:Hq.
  - apply Ascii.eqb_eq in Hq. subst c.
    change (json.unquote (String backslash (String dquote (escape_quotes r))))
      with (String dquote (json.unquote (escape_quotes r))).
    now rewrite (IH Hr).
  - unfold plain_byte in Hc. apply andb_prop in Hc. destruct Hc as [_ Hb].
    apply negb_true_iff in Hb. cbn [json.unquote]. rewrite Hb. now rewrite (IH Hr).
Qed.

Lemma scan_app (a b : string) :
  forall s, json.scan s (a ++ b) =
            match json.scan s a with
            | Some s' => json.scan s' b
            | None => None
            end.
Proof.
  induction a as [| c a IH]; intro s; cbn [append json.scan]; [reflexivity |].
  destruct (json.step s c); [apply IH | reflexivity].
Qed.

Lemma scan_cons (c : ascii) (r : string) (s : json.scanner) :
  json.scan s (String c r) =
  match json.step s c with
  | Some s' => json.scan s' r
  | None => None
  end.
Proof. reflexivity. Qed.

Lemma step_close_quote (raw : list ascii) (stk : list json.frame) :
  json.step (json.mkScanner (json.InString raw) stk None) dquote
  = json.finish (json.Str (json.unquote (of_bytes (rev raw)))) stk.
Proof. reflexivity. Qed.

Lemma step_number_comma (st : json.number_state) (lit : list ascii)
    (ms : list (string * json.value)) (k : string) (rest : list json.frame) :
  st = json.Zero \/ st = json.Digits ->
  json.step (json.mkScanner (json.InNumber st lit) (json.ObjectValue ms k :: rest) None)
    ","%char
  = Some (json.mkScanner json.BeginString
            (json.ObjectKey ((k, json.Number (of_bytes (rev lit))) :: ms) :: rest) None).
Proof. intros [-> | ->]; reflexivity. Qed.

(** Replaces a closed term by its value. *)
Ltac literal t :=
  let v := eval vm_compute in t in change t with v.

(** Runs the scanner over a literal chunk of the input. *)
Ltac run_scan :=
  match goal with
  | |- context [json.scan ?s ?str] =>
      let r := eval vm_compute in (json.scan s str) in
      replace (json.scan s str) with r by (vm_compute; reflexivity)
  end; cbv beta iota.

(** X16. For every query of printable ASCII bytes without a backslash and
    every lower time bound, the request body rendered from [templateSource]
    with the escaped query is a valid JSON document, and reading it back
    gives the query itself at query.bool.must[0].query_string.query and the
    rendered milliseconds, as a number, at
    query.bool.must[1].range.@timestamp.gte. *)
Theorem request_body_round_trip :
  forall (q : string) (T : Z),
    plain_query q = true ->
    exists body v,
      getRenderedTemplate templateSource (normalizeEsQuery q) T = Some (body, None)
      /\ json.parse body = Some v
      /\ query_string_of v = Some (json.Str q)
      /\ lower_bound_of v = Some (json.Number (decimal (Int64.mul T 1000))).
Proof.
  intros q T Hq. rewrite render_templateSource, normalizeEsQuery_unfold.
  generalize (Int64.mul T 1000). intro millis.
  cut (exists v,
          json.parse (filled templateSource_pieces millis (escape_quotes q)) = Some v
          /\ query_string_of v = Some (json.Str q)
          /\ lower_bound_of v = Some (json.Number (decimal millis))).
  { intros (v & Hv). eexists. exists v. split; [reflexivity | exact Hv]. }
  unfold templateSource_pieces. cbn [filled piece_value].
  literal (substring 0 138 templateSource).
  literal (substring 150 102 templateSource).
  literal (substring 267 298 templateSource).
  rewrite string_app_nil_r. unfold json.parse.
  rewrite scan_app. run_scan.
  rewrite scan_app, (scan_escaped q _ _ Hq). cbv beta iota.
  rewrite scan_app, scan_cons, step_close_quote.
  rewrite app_nil_r, rev_involutive, of_bytes_bytes, (unquote_escaped q Hq).
  cbn [json.finish]. cbv beta iota.
  run_scan.
  rewrite scan_app.
  match goal with
  | |- context [json.scan (json.mkScanner json.BeginValue ?stk None) (decimal millis)] =>
      destruct (scan_decimal millis stk) as (st & lit & Hst & Hscan & Hlit)
  end.
  rewrite Hscan. cbv beta iota.
  rewrite scan_cons, (step_number_comma st lit _ _ _ Hst), Hlit.
  cbv beta iota.
  generalize (decimal millis). intro D.
  run_scan.
  eexists. split; [reflexivity |]. split; reflexivity.
Qed.

Lemma request_body_round_trip_witness :
  exists body v,
    getRenderedTemplate templateSource
      (normalizeEsQuery ("level:" ++ dq ++ "error" ++ dq)) 1700000000
    = Some (body, None)
    /\ json.parse body = Some v
    /\ query_string_of v = Some (json.Str ("level:" ++ dq ++ "error" ++ dq))
    /\ lower_bound_of v = Some (json.Number "1700000000000").
Proof.
  apply (request_body_round_trip ("level:" ++ dq ++ "error" ++ dq) 1700000000).
  reflexivity.
Defined.

Lemma escape_quotes_app (a b : string) :
  escape_quotes (a ++ b) = escape_quotes a ++ escape_quotes b.
Proof.
  induction a as [| c a IH]; [reflexivity |].
  cbn [append]. rewrite !escape_quotes_cons, IH.
  destruct (Ascii.eqb c dquote); reflexivity.
Qed.

(** X17. Backslashes are not escaped: for every plain query followed by one
    backslash, the request body rendered from [templateSource] is not valid
    JSON (the backslash escapes the closing quote of the string). *)
Theorem trailing_backslash_breaks_body :
  forall (q : string) (T : Z),
    plain_query q = true ->
    exists body,
      getRenderedTemplate templateSource
        (normalizeEsQuery (q ++ String backslash EmptyString)) T
      = Some (body, None)
      /\ json.parse body = None.
Proof.
  intros q T Hq. rewrite render_templateSource, normalizeEsQuery_unfold.
  eexists. split; [reflexivity |].
  generalize (Int64.mul T 1000). intro millis.
  unfold templateSource_pieces. cbn [filled piece_value].
  literal (substring 0 138 templateSource).
  literal (substring 150 102 templateSource).
  rewrite escape_quotes_app. unfold json.parse.
  rewrite scan_app. run_scan.
  rewrite string_app_assoc, scan_app, (scan_escaped q _ _ Hq). cbv beta iota.
  change (escape_quotes (String backslash EmptyString))
    with (String backslash EmptyString).
  cbn [append json.scan].
  reflexivity.
Qed.

Lemma trailing_backslash_breaks_body_witness :
  exists body,
    getRenderedTemplate templateSource
      (normalizeEsQuery ("C:" ++ String backslash EmptyString)) 1700000000
    = Some (body, None)
    /\ json.parse body = None.
Proof.
  apply (trailing_backslash_breaks_body "C:" 1700000000). reflexivity.
Defined.
